(** * TASCAM CD-400U RS-232C controller: a shallow embedding

    The development follows [tascam_controller.py].  Python [str] values are
    Rocq strings (characters are the code points 0..255), [bytes] and
    [bytearray] values are lists of bytes, Python integers are [Z], the
    status dictionary is a finite map from field names to values, and the
    controller object is a record that is threaded through every method.
    Exceptions are explicit: a method returns the controller it leaves
    behind together with either its result or the exception it raised. *)

From Stdlib Require Import ZArith Strings.String Strings.Ascii Strings.Byte.
From Stdlib Require Import Numbers.DecimalString Numbers.DecimalNat.
From stdpp Require Import gmap strings list fin_maps.

Local Open Scope string_scope.

(** ** Python primitives used by the controller *)

Module Py.

Inductive Exn : Set :=
| ValueError
| IndexError
| UnicodeEncodeError
| RuntimeError.

(** Result of a call that may raise. *)
Inductive Result (A : Type) : Type :=
| Ok (a : A)
| Raise (e : Exn).
Arguments Ok {A} a.
Arguments Raise {A} e.

Definition rbind {A B} (r : Result A) (k : A -> Result B) : Result B :=
  match r with
  | Ok a => k a
  | Raise e => Raise e
  end.

Definition LF : ascii := "010"%char.
Definition CR : ascii := "013"%char.

(** [s[:n]] *)
Fixpoint str_take (n : nat) (s : string) : string :=
  match n, s with
  | S n', String c s' => String c (str_take n' s')
  | _, _ => EmptyString
  end.

(** [s[n:]] *)
Fixpoint str_drop (n : nat) (s : string) : string :=
  match n, s with
  | S n', String c s' => str_drop n' s'
  | _, _ => s
  end.

(** [s[i:j]] for [0 <= i <= j] *)
Definition str_slice (i j : nat) (s : string) : string :=
  str_take (j - i) (str_drop i s).

(** [s.startswith(p)] *)
Definition startswith (p s : string) : bool :=
  String.eqb (str_take (String.length p) s) p.

(** A character that [str.encode('ascii')] accepts, a byte that
    [bytes.decode('ascii')] accepts. *)
Definition is_ascii (c : ascii) : bool := (N_of_ascii c <? 128)%N.

(** [s.encode('ascii')]: raises on the first character above 127. *)
Fixpoint encode_ascii (s : string) : Result (list byte) :=
  match s with
  | EmptyString => Ok []
  | String c s' =>
      if is_ascii c
      then rbind (encode_ascii s') (fun bs => Ok (byte_of_ascii c :: bs))
      else Raise UnicodeEncodeError
  end.

(** [bs.decode('ascii', errors='ignore')]: bytes above 127 are dropped. *)
Fixpoint decode_ascii_ignore (bs : list byte) : string :=
  match bs with
  | [] => EmptyString
  | b :: bs' =>
      if is_ascii (ascii_of_byte b)
      then String (ascii_of_byte b) (decode_ascii_ignore bs')
      else decode_ascii_ignore bs'
  end.

(** [bs.index(x)], [None] standing for the [ValueError] of a missing byte;
    [x in bs] is [is_Some (bytes_index x bs)]. *)
Fixpoint bytes_index (x : byte) (bs : list byte) : option nat :=
  match bs with
  | [] => None
  | b :: bs' => if Byte.eqb b x then Some 0%nat else S <$> bytes_index x bs'
  end.

(** [int(c)] for a one-character string: on the code points 0..255 exactly
    the ten ASCII digits are accepted. *)
Definition digit_value (c : ascii) : option Z :=
  let n := N_of_ascii c in
  if ((48 <=? n) && (n <=? 57))%N then Some (Z.of_N n - 48)%Z else None.

Definition int_char (c : ascii) : Result Z :=
  match digit_value c with
  | Some v => Ok v
  | None => Raise ValueError
  end.

(** [s[i]] for [i >= 0] *)
Definition str_at (s : string) (i : nat) : Result ascii :=
  match String.get i s with
  | Some c => Ok c
  | None => Raise IndexError
  end.

(** [int(s[i])] *)
Definition int_at (s : string) (i : nat) : Result Z :=
  rbind (str_at s i) int_char.

Definition hex_value (c : ascii) : option Z :=
  let n := N_of_ascii c in
  if ((48 <=? n) && (n <=? 57))%N then Some (Z.of_N n - 48)%Z
  else if ((65 <=? n) && (n <=? 70))%N then Some (Z.of_N n - 55)%Z
  else if ((97 <=? n) && (n <=? 102))%N then Some (Z.of_N n - 87)%Z
  else None.

(** White space that [int] strips: tab, LF, VT, FF, CR, space, NEL, NBSP. *)
Definition is_int_space (c : ascii) : bool :=
  let n := N_of_ascii c in
  (((9 <=? n) && (n <=? 13)) || (n =? 32) || (n =? 133) || (n =? 160))%N.

(** [int(s, 16)] for a string of exactly two characters: two hexadecimal
    digits, or one digit with a sign in front or white space on one side. *)
Definition int_hex2 (s : string) : Result Z :=
  match s with
  | String a (String b EmptyString) =>
      match hex_value a, hex_value b with
      | Some x, Some y => Ok (16 * x + y)%Z
      | Some x, None => if is_int_space b then Ok x else Raise ValueError
      | None, Some y =>
          if is_int_space a then Ok y
          else if Ascii.eqb a "+" then Ok y
          else if Ascii.eqb a "-" then Ok (- y)%Z
          else Raise ValueError
      | None, None => Raise ValueError
      end
  | _ => Raise ValueError
  end.

(** Decimal rendering of a non-negative integer, [str(n)]. *)
Definition str_of_nat (n : nat) : string :=
  NilEmpty.string_of_uint (Nat.to_uint n).

(** [f"{n:02d}"] for [n >= 0]: at least two digits, padded with a zero. *)
Definition fmt_02d (n : Z) : string :=
  let s := str_of_nat (Z.to_nat n) in
  if (String.length s <? 2)%nat then "0" ++ s else s.

(** [c.lower()] on the code points 0..255. *)
Definition char_lower (c : ascii) : ascii :=
  let n := N_of_ascii c in
  if (((65 <=? n) && (n <=? 90)) ||
      ((192 <=? n) && (n <=? 222) && negb (n =? 215)))%N
  then ascii_of_N (n + 32) else c.

Fixpoint str_lower (s : string) : string :=
  match s with
  | EmptyString => EmptyString
  | String c s' => String (char_lower c) (str_lower s')
  end.

End Py.
Import Py.

(** ** Data model *)

(** Values stored in the status dictionary. *)
#[local] Set Warnings "-register-all".
Inductive Value : Type :=
| VNone
| VStr (s : string)
| VInt (n : Z)
| VBool (b : bool)
| VList (l : list Value)
| VDict (kv : list (string * Value)).

(** The pyserial port object, of which the controller looks at [is_open]. *)
Record Serial : Type := {
  is_open : bool
}.

(** Threads are known by an identifier; a status listener too, since a
    callback is opaque code whose only modelled effect is being called.
    Thread 0 is the caller's thread; the threads [connect] starts are
    numbered from 1. *)
Definition Tid := nat.
Definition Listener := nat.

(** A clock reading of [time.time()], in milliseconds. *)
Definition Time := Z.

(** What the controller does to the world around it, oldest first. *)
Inductive Event : Type :=
| EvOpen (port : string) (baudrate : Z) (ok : bool)
| EvStart (t : Tid)
| EvWrite (bs : list byte)
| EvClose
| EvCallback (l : Listener) (snapshot : gmap string Value).

Record Controller : Type := {
  port : string;
  baudrate : Z;
  serial : option Serial;
  connected : bool;
  cmd_queue : list (string * string);
  last_cmd_time : Time;
  consecutive_failures : Z;
  max_failures_before_disconnect : Z;
  reconnect_interval : Time;
  last_reconnect_attempt : Time;
  current_status : gmap string Value;
  status_callbacks : list Listener;
  cmd_thread : option Tid;
  poll_thread : option Tid;
  running : bool;
  response_buffer : list byte;
  trace : list Event
}.

Definition set_serial (v : option Serial) (c : Controller) : Controller :=
  {| port := port c; baudrate := baudrate c; serial := v;
     connected := connected c; cmd_queue := cmd_queue c;
     last_cmd_time := last_cmd_time c;
     consecutive_failures := consecutive_failures c;
     max_failures_before_disconnect := max_failures_before_disconnect c;
     reconnect_interval := reconnect_interval c;
     last_reconnect_attempt := last_reconnect_attempt c;
     current_status := current_status c;
     status_callbacks := status_callbacks c; cmd_thread := cmd_thread c;
     poll_thread := poll_thread c; running := running c;
     response_buffer := response_buffer c; trace := trace c |}.

Definition set_connected (v : bool) (c : Controller) : Controller :=
  {| port := port c; baudrate := baudrate c; serial := serial c;
     connected := v; cmd_queue := cmd_queue c;
     last_cmd_time := last_cmd_time c;
     consecutive_failures := consecutive_failures c;
     max_failures_before_disconnect := max_failures_before_disconnect c;
     reconnect_interval := reconnect_interval c;
     last_reconnect_attempt := last_reconnect_attempt c;
     current_status := current_status c;
     status_callbacks := status_callbacks c; cmd_thread := cmd_thread c;
     poll_thread := poll_thread c; running := running c;
     response_buffer := response_buffer c; trace := trace c |}.

Definition set_cmd_queue (v : list (string * string)) (c : Controller) : Controller :=
  {| port := port c; baudrate := baudrate c; serial := serial c;
     connected := connected c; cmd_queue := v;
     last_cmd_time := last_cmd_time c;
     consecutive_failures := consecutive_failures c;
     max_failures_before_disconnect := max_failures_before_disconnect c;
     reconnect_interval := reconnect_interval c;
     last_reconnect_attempt := last_reconnect_attempt c;
     current_status := current_status c;
     status_callbacks := status_callbacks c; cmd_thread := cmd_thread c;
     poll_thread := poll_thread c; running := running c;
     response_buffer := response_buffer c; trace := trace c |}.

Definition set_last_cmd_time (v : Time) (c : Controller) : Controller :=
  {| port := port c; baudrate := baudrate c; serial := serial c;
     connected := connected c; cmd_queue := cmd_queue c; last_cmd_time := v;
     consecutive_failures := consecutive_failures c;
     max_failures_before_disconnect := max_failures_before_disconnect c;
     reconnect_interval := reconnect_interval c;
     last_reconnect_attempt := last_reconnect_attempt c;
     current_status := current_status c;
     status_callbacks := status_callbacks c; cmd_thread := cmd_thread c;
     poll_thread := poll_thread c; running := running c;
     response_buffer := response_buffer c; trace := trace c |}.

Definition set_consecutive_failures (v : Z) (c : Controller) : Controller :=
  {| port := port c; baudrate := baudrate c; serial := serial c;
     connected := connected c; cmd_queue := cmd_queue c;
     last_cmd_time := last_cmd_time c; consecutive_failures := v;
     max_failures_before_disconnect := max_failures_before_disconnect c;
     reconnect_interval := reconnect_interval c;
     last_reconnect_attempt := last_reconnect_attempt c;
     current_status := current_status c;
     status_callbacks := status_callbacks c; cmd_thread := cmd_thread c;
     poll_thread := poll_thread c; running := running c;
     response_buffer := response_buffer c; trace := trace c |}.

Definition set_last_reconnect_attempt (v : Time) (c : Controller) : Controller :=
  {| port := port c; baudrate := baudrate c; serial := serial c;
     connected := connected c; cmd_queue := cmd_queue c;
     last_cmd_time := last_cmd_time c;
     consecutive_failures := consecutive_failures c;
     max_failures_before_disconnect := max_failures_before_disconnect c;
     reconnect_interval := reconnect_interval c;
     last_reconnect_attempt := v; current_status := current_status c;
     status_callbacks := status_callbacks c; cmd_thread := cmd_thread c;
     poll_thread := poll_thread c; running := running c;
     response_buffer := response_buffer c; trace := trace c |}.

Definition set_current_status (v : gmap string Value) (c : Controller) : Controller :=
  {| port := port c; baudrate := baudrate c; serial := serial c;
     connected := connected c; cmd_queue := cmd_queue c;
     last_cmd_time := last_cmd_time c;
     consecutive_failures := consecutive_failures c;
     max_failures_before_disconnect := max_failures_before_disconnect c;
     reconnect_interval := reconnect_interval c;
     last_reconnect_attempt := last_reconnect_attempt c;
     current_status := v; status_callbacks := status_callbacks c;
     cmd_thread := cmd_thread c; poll_thread := poll_thread c;
     running := running c; response_buffer := response_buffer c;
     trace := trace c |}.

Definition set_status_callbacks (v : list Listener) (c : Controller) : Controller :=
  {| port := port c; baudrate := baudrate c; serial := serial c;
     connected := connected c; cmd_queue := cmd_queue c;
     last_cmd_time := last_cmd_time c;
     consecutive_failures := consecutive_failures c;
     max_failures_before_disconnect := max_failures_before_disconnect c;
     reconnect_interval := reconnect_interval c;
     last_reconnect_attempt := last_reconnect_attempt c;
     current_status := current_status c; status_callbacks := v;
     cmd_thread := cmd_thread c; poll_thread := poll_thread c;
     running := running c; response_buffer := response_buffer c;
     trace := trace c |}.

Definition set_cmd_thread (v : option Tid) (c : Controller) : Controller :=
  {| port := port c; baudrate := baudrate c; serial := serial c;
     connected := connected c; cmd_queue := cmd_queue c;
     last_cmd_time := last_cmd_time c;
     consecutive_failures := consecutive_failures c;
     max_failures_before_disconnect := max_failures_before_disconnect c;
     reconnect_interval := reconnect_interval c;
     last_reconnect_attempt := last_reconnect_attempt c;
     current_status := current_status c;
     status_callbacks := status_callbacks c; cmd_thread := v;
     poll_thread := poll_thread c; running := running c;
     response_buffer := response_buffer c; trace := trace c |}.

Definition set_poll_thread (v : option Tid) (c : Controller) : Controller :=
  {| port := port c; baudrate := baudrate c; serial := serial c;
     connected := connected c; cmd_queue := cmd_queue c;
     last_cmd_time := last_cmd_time c;
     consecutive_failures := consecutive_failures c;
     max_failures_before_disconnect := max_failures_before_disconnect c;
     reconnect_interval := reconnect_interval c;
     last_reconnect_attempt := last_reconnect_attempt c;
     current_status := current_status c;
     status_callbacks := status_callbacks c; cmd_thread := cmd_thread c;
     poll_thread := v; running := running c;
     response_buffer := response_buffer c; trace := trace c |}.

Definition set_running (v : bool) (c : Controller) : Controller :=
  {| port := port c; baudrate := baudrate c; serial := serial c;
     connected := connected c; cmd_queue := cmd_queue c;
     last_cmd_time := last_cmd_time c;
     consecutive_failures := consecutive_failures c;
     max_failures_before_disconnect := max_failures_before_disconnect c;
     reconnect_interval := reconnect_interval c;
     last_reconnect_attempt := last_reconnect_attempt c;
     current_status := current_status c;
     status_callbacks := status_callbacks c; cmd_thread := cmd_thread c;
     poll_thread := poll_thread c; running := v;
     response_buffer := response_buffer c; trace := trace c |}.

Definition set_response_buffer (v : list byte) (c : Controller) : Controller :=
  {| port := port c; baudrate := baudrate c; serial := serial c;
     connected := connected c; cmd_queue := cmd_queue c;
     last_cmd_time := last_cmd_time c;
     consecutive_failures := consecutive_failures c;
     max_failures_before_disconnect := max_failures_before_disconnect c;
     reconnect_interval := reconnect_interval c;
     last_reconnect_attempt := last_reconnect_attempt c;
     current_status := current_status c;
     status_callbacks := status_callbacks c; cmd_thread := cmd_thread c;
     poll_thread := poll_thread c; running := running c;
     response_buffer := v; trace := trace c |}.

Definition set_trace (v : list Event) (c : Controller) : Controller :=
  {| port := port c; baudrate := baudrate c; serial := serial c;
     connected := connected c; cmd_queue := cmd_queue c;
     last_cmd_time := last_cmd_time c;
     consecutive_failures := consecutive_failures c;
     max_failures_before_disconnect := max_failures_before_disconnect c;
     reconnect_interval := reconnect_interval c;
     last_reconnect_attempt := last_reconnect_attempt c;
     current_status := current_status c;
     status_callbacks := status_callbacks c; cmd_thread := cmd_thread c;
     poll_thread := poll_thread c; running := running c;
     response_buffer := response_buffer c; trace := v |}.

(** ** The monad of controller methods

    A method runs on a controller and leaves a controller behind, also
    when it raises: what it had already assigned stays assigned. *)

Definition M (A : Type) : Type := Controller -> Controller * Result A.

Definition ret {A} (a : A) : M A := fun c => (c, Ok a).
Definition raise {A} (e : Exn) : M A := fun c => (c, Raise e).
Definition bind {A B} (m : M A) (k : A -> M B) : M B :=
  fun c => match m c with
           | (c', Ok a) => k a c'
           | (c', Raise e) => (c', Raise e)
           end.
Definition lift {A} (r : Result A) : M A := fun c => (c, r).
Definition modify (f : Controller -> Controller) : M unit :=
  fun c => (f c, Ok tt).
Definition get {A} (f : Controller -> A) : M A := fun c => (c, Ok (f c)).
Definition emit (e : Event) : M unit :=
  modify (fun c => set_trace (trace c ++ [e]) c).

(** [try: m except Exception as e: h e] *)
Definition try_except {A} (m : M A) (h : Exn -> M A) : M A :=
  fun c => match m c with
           | (c', Ok a) => (c', Ok a)
           | (c', Raise e) => h e c'
           end.

Declare Scope py_scope.
Delimit Scope py_scope with py.
Notation "'let*' x := m 'in' k" := (bind m (fun x => k))
  (at level 10, x name, m at level 100, k at level 200) : py_scope.
Notation "'do' m 'then' k" := (bind m (fun _ => k))
  (at level 10, m at level 100, k at level 200) : py_scope.
Local Open Scope py_scope.

(** ** Protocol constants *)

Local Open Scope Z_scope.

Definition CMD_STOP := "10".
Definition CMD_PLAY := "12".
Definition CMD_READY := "14".
Definition CMD_SEARCH := "16".
Definition CMD_EJECT := "18".
Definition CMD_TRACK_SKIP := "1A".
Definition CMD_DIRECT_TRACK_SEARCH := "23".
Definition CMD_RESUME_PLAY_SELECT := "34".
Definition CMD_RESUME_PLAY_SENSE := "35".
Definition CMD_REPEAT_SELECT := "37".
Definition CMD_REPEAT_SENSE := "38".
Definition CMD_INCR_PLAY_SELECT := "3A".
Definition CMD_INCR_PLAY_SENSE := "3B".
Definition CMD_CLEAR := "4A".
Definition CMD_REMOTE_LOCAL_SELECT := "4C".
Definition CMD_REMOTE_LOCAL_SENSE := "4D".
Definition CMD_PLAY_MODE_SELECT := "4E".
Definition CMD_PLAY_MODE_SENSE := "4F".
Definition CMD_MECHA_STATUS_SENSE := "50".
Definition CMD_TRACK_NO_SENSE := "55".
Definition CMD_MEDIA_STATUS_SENSE := "56".
Definition CMD_CURRENT_TRACK_INFO_SENSE := "57".
Definition CMD_CURRENT_TRACK_TIME_SENSE := "58".
Definition CMD_TOTAL_TRACK_TIME_SENSE := "5D".
Definition CMD_ERROR_SENSE := "78".
Definition CMD_CAUTION_SENSE := "79".
Definition CMD_DEVICE_SELECT := "7F01".
Definition CMD_ENTER := "7F7049".
Definition CMD_BACK := "7F704A".

Definition RET_RESUME_PLAY := "B5".
Definition RET_REPEAT := "B8".
Definition RET_INCR_PLAY := "BB".
Definition RET_REMOTE_LOCAL := "CD".
Definition RET_PLAY_MODE := "CF".
Definition RET_MECHA_STATUS := "D0".
Definition RET_TRACK_NO := "D5".
Definition RET_MEDIA_STATUS := "D6".
Definition RET_CURRENT_TRACK_INFO := "D7".
Definition RET_CURRENT_TRACK_TIME := "D8".
Definition RET_TOTAL_TRACK_TIME := "DD".
Definition RET_ERROR_SENSE_REQUEST := "F0".
Definition RET_CAUTION_SENSE_REQUEST := "F1".
Definition RET_ILLEGAL_STATUS := "F2".
Definition RET_CHANGE_STATUS := "F6".
Definition RET_ERROR_SENSE := "F8".
Definition RET_CAUTION_SENSE := "F9".
Definition RET_VENDOR := "FF".

Definition MACHINE_ID := "0".

(** Timing constants, in milliseconds. *)
Definition CMD_INTERVAL : Time := 100.

Definition VALID_BAUDRATES : list Z := [4800; 9600; 19200; 38400; 57600].

(** ** Construction and status reset *)

(** The dictionary literal of [__init__] and of [_reset_status]. *)
Definition default_status : gmap string Value :=
  list_to_map
    [ ("mecha_status", VStr "unknown");
      ("track_number", VInt 0);
      ("current_track", VInt 0);
      ("total_tracks", VInt 0);
      ("time_elapsed", VStr "00:00");
      ("time_remaining", VStr "00:00");
      ("total_time", VStr "00:00");
      ("media_present", VBool false);
      ("media_type", VStr "unknown");
      ("play_mode", VStr "continuous");
      ("repeat_mode", VBool false);
      ("resume_mode", VBool false);
      ("incremental_play", VBool false);
      ("remote_local_mode", VStr "unknown");
      ("device", VStr "CD");
      ("device_name", VStr "CD");
      ("is_tuner", VBool false);
      ("error_status", VNone);
      ("caution_status", VNone) ].

(** [TascamController(port, baudrate)] *)
Definition init (port : string) (baudrate : Z) : Result Controller :=
  if negb (bool_decide (baudrate ∈ VALID_BAUDRATES))
  then Raise ValueError
  else Ok {| port := port;
             baudrate := baudrate;
             serial := None;
             connected := false;
             cmd_queue := [];
             last_cmd_time := 0;
             consecutive_failures := 0;
             max_failures_before_disconnect := 10;
             reconnect_interval := 5000;
             last_reconnect_attempt := 0;
             current_status := default_status;
             status_callbacks := [];
             cmd_thread := None;
             poll_thread := None;
             running := false;
             response_buffer := [];
             trace := [] |}.

(** [_notify_callbacks]: every listener is called with a copy of the
    status; what a listener raises is caught and logged. *)
Definition notify_callbacks : M unit :=
  modify (fun c =>
    set_trace
      (trace c ++ map (fun l => EvCallback l (current_status c))
                      (status_callbacks c)) c).

Definition register_callback (l : Listener) : M unit :=
  modify (fun c => set_status_callbacks (status_callbacks c ++ [l]) c).

Definition reset_status : M unit :=
  do modify (set_current_status default_status) then
  notify_callbacks.

(** [self.current_status[key] = v] *)
Definition status_set (key : string) (v : Value) : M unit :=
  modify (fun c => set_current_status (<[key := v]> (current_status c)) c).

Definition get_status : M (gmap string Value) := get current_status.

(** ** Frame codec *)

Definition build_command (command data : string) : Result (list byte) :=
  let cmd_bytes :=
    if startswith "7F" command || startswith "FF" command
    then command else command in
  let cmd_str :=
    String LF (MACHINE_ID ++ cmd_bytes ++ data ++ String CR EmptyString) in
  encode_ascii cmd_str.

(** [send_command]: put the pair on the queue. *)
Definition send_command (command data : string) : M unit :=
  modify (fun c => set_cmd_queue (cmd_queue c ++ [(command, data)]) c).

(** What the port has for the controller when it looks: the bytes waiting
    ([in_waiting] of them), or a failing port. *)
Inductive Inbound : Type :=
| Rx (bs : list byte)
| RxFail.

Definition serial_is_open (c : Controller) : bool :=
  match serial c with
  | Some s => is_open s
  | None => false
  end.

(** [bs[i] == x], for [i] within the length. *)
Definition byte_at_is (bs : list byte) (i : nat) (x : byte) : bool :=
  match bs !! i with
  | Some b => Byte.eqb b x
  | None => false
  end.

Definition read_response (rx : Inbound) : M (option (string * string)) :=
  fun c =>
    let no_frame : option (string * string) := None in
    if negb (serial_is_open c) then (c, Ok no_frame)
    else
      match rx with
      | RxFail => (c, Ok no_frame)
      | Rx data =>
          let c1 :=
            if (0 <? length data)%nat
            then set_response_buffer (response_buffer c ++ data) c
            else c in
          match bytes_index x0d (response_buffer c1) with
          | Some cr_idx =>
              let message := take cr_idx (response_buffer c1) in
              let c2 :=
                set_response_buffer
                  (drop (cr_idx + 1)%nat (response_buffer c1)) c1 in
              if (3 <=? length message)%nat &&
                 byte_at_is message 0 x0a
              then
                let msg_str := decode_ascii_ignore (drop 1 message) in
                if (3 <=? String.length msg_str)%nat
                then
                  let command := str_slice 1 3 msg_str in
                  let data :=
                    if (3 <? String.length msg_str)%nat
                    then str_drop 3 msg_str else EmptyString in
                  (c2, Ok (Some (command, data)))
                else (c2, Ok no_frame)
              else (c2, Ok no_frame)
          | None => (c1, Ok no_frame)
          end
      end.

(** ** Response decoder *)

(** [d.get(key, default)] *)
Definition dict_get {A} (d : gmap string A) (key : string) (default : A) : A :=
  match d !! key with
  | Some v => v
  | None => default
  end.

Definition status_map : gmap string string :=
  list_to_map
    [ ("00", "no_media"); ("01", "ejecting"); ("10", "stop"); ("11", "play");
      ("12", "ready"); ("28", "search_forward"); ("29", "search_backward");
      ("FF", "other") ].

Definition media_type_map : gmap string string :=
  list_to_map [ ("00", "CD-DA/Audio"); ("10", "CD-ROM/Data") ].

Definition play_mode_map : gmap string string :=
  list_to_map [ ("00", "continuous"); ("01", "single"); ("06", "random") ].

Definition device_kind_map : gmap string (string * string) :=
  list_to_map
    [ ("00", ("sd", "SD Card")); ("10", ("usb", "USB")); ("11", ("cd", "CD"));
      ("20", ("bluetooth", "Bluetooth")); ("30", ("fm", "FM Radio"));
      ("31", ("am", "AM Radio")); ("40", ("aux", "AUX Input")) ].

Definition remote_local_map : gmap string string :=
  list_to_map [ ("00", "remote_only"); ("01", "remote_and_local") ].

Definition error_bits : list (Z * string) :=
  [ (0x01, "focus_error"); (0x02, "tracking_error"); (0x04, "spindle_error");
    (0x08, "sled_error"); (0x10, "tray_error"); (0x20, "no_disc");
    (0x40, "cannot_play"); (0x80, "other_error") ].

Definition caution_bits : list (Z * string) :=
  [ (0x01, "unsupported_disc"); (0x02, "dirty_disc"); (0x04, "no_audio");
    (0x08, "temperature_high"); (0x10, "copyright_protected") ].

(** The run of [if byte & mask: names.append(name)] statements. *)
Definition flag_names (byte : Z) (bits : list (Z * string)) : list string :=
  map snd (filter (fun p => negb (Z.land byte (fst p) =? 0)) bits).

(** The branch of [_handle_response] for [command]; the result is the
    [updated] flag. *)
Definition decode_response (command data : string) : M bool :=
  let len := String.length data in
  if String.eqb command RET_MECHA_STATUS then
    do status_set "mecha_status"
         (VStr (dict_get status_map (str_take 2 data) "unknown")) then
    ret true
  else if String.eqb command RET_TRACK_NO then
    if (4 <=? len)%nat then
      let* tens := lift (int_at data 0) in
      let* ones := lift (int_at data 1) in
      let* thousands := lift (int_at data 2) in
      let* hundreds := lift (int_at data 3) in
      let track_num := thousands * 1000 + hundreds * 100 + tens * 10 + ones in
      do status_set "track_number" (VInt track_num) then
      ret true
    else ret false
  else if String.eqb command RET_CURRENT_TRACK_TIME then
    if (10 <=? len)%nat then
      let* min_tens := lift (int_at data 2) in
      let* min_ones := lift (int_at data 3) in
      let* min_thousands := lift (int_at data 4) in
      let* min_hundreds := lift (int_at data 5) in
      let* sec_tens := lift (int_at data 6) in
      let* sec_ones := lift (int_at data 7) in
      let minutes :=
        (min_thousands * 1000) + (min_hundreds * 100) + (min_tens * 10)
        + min_ones in
      let seconds := sec_tens * 10 + sec_ones in
      do status_set "time_elapsed"
           (VStr (fmt_02d minutes ++ ":" ++ fmt_02d seconds)) then
      ret true
    else ret false
  else if String.eqb command RET_MEDIA_STATUS then
    if (4 <=? len)%nat then
      do status_set "media_present"
           (VBool (String.eqb (str_take 2 data) "01")) then
      let media_type_code := str_slice 2 4 data in
      do status_set "media_type"
           (VStr (dict_get media_type_map media_type_code "Unknown")) then
      ret true
    else ret false
  else if String.eqb command RET_CURRENT_TRACK_INFO then
    if (4 <=? len)%nat then
      let* tens := lift (int_at data 0) in
      let* ones := lift (int_at data 1) in
      let* thousands := lift (int_at data 2) in
      let* hundreds := lift (int_at data 3) in
      let current_track :=
        thousands * 1000 + hundreds * 100 + tens * 10 + ones in
      do status_set "current_track" (VInt current_track) then
      ret true
    else ret false
  else if String.eqb command RET_PLAY_MODE then
    if (2 <=? len)%nat then
      do status_set "play_mode"
           (VStr (dict_get play_mode_map (str_take 2 data) "continuous")) then
      ret true
    else ret false
  else if String.eqb command RET_TOTAL_TRACK_TIME then
    if (12 <=? len)%nat then
      let* tens := lift (int_at data 0) in
      let* ones := lift (int_at data 1) in
      let* thousands := lift (int_at data 2) in
      let* hundreds := lift (int_at data 3) in
      let total_tracks :=
        thousands * 1000 + hundreds * 100 + tens * 10 + ones in
      do status_set "total_tracks" (VInt total_tracks) then
      do (if negb (String.eqb (str_slice 4 10 data) "000000") then
            let* min_tens := lift (int_at data 4) in
            let* min_ones := lift (int_at data 5) in
            let* min_thousands := lift (int_at data 6) in
            let* min_hundreds := lift (int_at data 7) in
            let* sec_tens := lift (int_at data 8) in
            let* sec_ones := lift (int_at data 9) in
            let minutes :=
              (min_thousands * 1000) + (min_hundreds * 100) + (min_tens * 10)
              + min_ones in
            let seconds := sec_tens * 10 + sec_ones in
            status_set "total_time"
              (VStr (fmt_02d minutes ++ ":" ++ fmt_02d seconds))
          else ret tt) then
      ret true
    else ret false
  else if String.eqb command RET_VENDOR then
    if (2 <=? len)%nat then
      let category := str_take 2 data in
      if String.eqb category "01" then
        if (8 <=? len)%nat then
          let device_kind := str_slice 6 8 data in
          match device_kind_map !! device_kind with
          | Some (device_code, device_name) =>
              do status_set "device" (VStr device_code) then
              do status_set "device_name" (VStr device_name) then
              do status_set "is_tuner"
                   (VBool (bool_decide (device_code ∈ ["fm"; "am"]))) then
              ret true
          | None => ret false
          end
        else ret false
      else ret false
    else ret false
  else if String.eqb command RET_RESUME_PLAY then
    if (2 <=? len)%nat then
      do status_set "resume_mode"
           (VBool (String.eqb (str_take 2 data) "01")) then
      ret true
    else ret false
  else if String.eqb command RET_REPEAT then
    if (2 <=? len)%nat then
      do status_set "repeat_mode"
           (VBool (String.eqb (str_take 2 data) "01")) then
      ret true
    else ret false
  else if String.eqb command RET_INCR_PLAY then
    if (2 <=? len)%nat then
      do status_set "incremental_play"
           (VBool (String.eqb (str_take 2 data) "01")) then
      ret true
    else ret false
  else if String.eqb command RET_REMOTE_LOCAL then
    if (2 <=? len)%nat then
      do status_set "remote_local_mode"
           (VStr (dict_get remote_local_map (str_take 2 data) "unknown")) then
      ret true
    else ret false
  else if String.eqb command RET_ERROR_SENSE then
    if (2 <=? len)%nat then
      let* error_byte := lift (int_hex2 (str_take 2 data)) in
      let errors := flag_names error_byte error_bits in
      do status_set "error_status"
           (VDict [ ("raw", VInt error_byte);
                    ("errors", VList (map VStr errors));
                    ("has_error", VBool (0 <? length errors)%nat) ]) then
      ret true
    else ret false
  else if String.eqb command RET_CAUTION_SENSE then
    if (2 <=? len)%nat then
      let* caution_byte := lift (int_hex2 (str_take 2 data)) in
      let cautions := flag_names caution_byte caution_bits in
      do status_set "caution_status"
           (VDict [ ("raw", VInt caution_byte);
                    ("cautions", VList (map VStr cautions));
                    ("has_caution", VBool (0 <? length cautions)%nat) ]) then
      ret true
    else ret false
  else if String.eqb command RET_CHANGE_STATUS then
    do send_command CMD_DEVICE_SELECT "FF" then
    ret false
  else if String.eqb command RET_ERROR_SENSE_REQUEST then
    do send_command CMD_ERROR_SENSE "" then
    ret false
  else if String.eqb command RET_CAUTION_SENSE_REQUEST then
    do send_command CMD_CAUTION_SENSE "" then
    ret false
  else if String.eqb command RET_ILLEGAL_STATUS then
    ret false
  else ret false.

(** [_handle_response] *)
Definition handle_response (command data : string) : M unit :=
  let* updated := decode_response command data in
  if updated then notify_callbacks else ret tt.

(** ** Command-issuing operations *)

(** [str(n)] *)
Definition str_of_int (n : Z) : string :=
  if n <? 0 then "-" ++ str_of_nat (Z.to_nat (- n))
  else str_of_nat (Z.to_nat n).

Definition play : M unit := send_command CMD_PLAY "".
Definition stop : M unit := send_command CMD_STOP "".
Definition eject : M unit := send_command CMD_EJECT "".
Definition next_track : M unit := send_command CMD_TRACK_SKIP "00".
Definition previous_track : M unit := send_command CMD_TRACK_SKIP "01".

Definition search_forward (high_speed : bool) : M unit :=
  let data := if high_speed then "10" else "00" in
  send_command CMD_SEARCH data.

Definition search_reverse (high_speed : bool) : M unit :=
  let data := if high_speed then "11" else "01" in
  send_command CMD_SEARCH data.

Definition goto_track (track_number : Z) : M unit :=
  if negb ((1 <=? track_number) && (track_number <=? 999)) then ret tt
  else
    let thousands := (track_number / 1000) mod 10 in
    let hundreds := (track_number / 100) mod 10 in
    let tens := (track_number / 10) mod 10 in
    let ones := track_number mod 10 in
    let data :=
      str_of_int tens ++ str_of_int ones ++ str_of_int thousands
      ++ str_of_int hundreds in
    send_command CMD_DIRECT_TRACK_SEARCH data.

Definition play_mode_codes : gmap string string :=
  list_to_map [ ("continuous", "00"); ("single", "01"); ("random", "06") ].

Definition set_play_mode (mode : string) : M unit :=
  match play_mode_codes !! mode with
  | Some code =>
      do send_command CMD_PLAY_MODE_SELECT code then
      status_set "play_mode" (VStr mode)
  | None => ret tt
  end.

Definition set_repeat (enabled : bool) : M unit :=
  let data := if enabled then "01" else "00" in
  do send_command CMD_REPEAT_SELECT data then
  status_set "repeat_mode" (VBool enabled).

Definition pause : M unit := send_command CMD_READY "01".
Definition resume : M unit := send_command CMD_PLAY "".

Definition set_resume_mode (enabled : bool) : M unit :=
  let data := if enabled then "01" else "00" in
  do send_command CMD_RESUME_PLAY_SELECT data then
  status_set "resume_mode" (VBool enabled).

Definition set_incremental_play (enabled : bool) : M unit :=
  let data := if enabled then "01" else "00" in
  send_command CMD_INCR_PLAY_SELECT data.

Definition search_start (forward high_speed : bool) : M unit :=
  let data :=
    if forward then (if high_speed then "10" else "00")
    else (if high_speed then "11" else "01") in
  send_command CMD_SEARCH data.

Definition search_stop : M unit := send_command CMD_PLAY "".

Definition device_codes : gmap string string :=
  list_to_map
    [ ("sd", "00"); ("usb", "10"); ("cd", "11"); ("bluetooth", "20");
      ("fm", "30"); ("am", "31"); ("aux", "40") ].

Definition device_names : gmap string string :=
  list_to_map
    [ ("sd", "SD Card"); ("usb", "USB"); ("cd", "CD");
      ("bluetooth", "Bluetooth"); ("fm", "FM Radio"); ("am", "AM Radio");
      ("aux", "AUX Input") ].

(** [c.upper()] where the result stays within the code points 0..255; it
    is only the default of a lookup that never misses. *)
Definition char_upper (c : ascii) : ascii :=
  let n := N_of_ascii c in
  if (((97 <=? n) && (n <=? 122)) ||
      ((224 <=? n) && (n <=? 254) && negb (n =? 247)))%N
  then ascii_of_N (n - 32) else c.

Fixpoint str_upper (s : string) : string :=
  match s with
  | EmptyString => EmptyString
  | String c s' => String (char_upper c) (str_upper s')
  end.

Definition switch_device (device : string) : M unit :=
  let device_lower := str_lower device in
  match device_codes !! device_lower with
  | Some code =>
      do send_command CMD_DEVICE_SELECT code then
      do status_set "device" (VStr device_lower) then
      do status_set "device_name"
           (VStr (dict_get device_names device_lower (str_upper device))) then
      status_set "is_tuner" (VBool (bool_decide (device_lower ∈ ["fm"; "am"])))
  | None => ret tt
  end.

Definition tuner_frequency_up : M unit := send_command CMD_TRACK_SKIP "00".
Definition tuner_frequency_down : M unit := send_command CMD_TRACK_SKIP "01".
Definition tuner_seek_up : M unit := send_command CMD_SEARCH "00".
Definition tuner_seek_down : M unit := send_command CMD_SEARCH "01".

Definition tuner_preset (preset_number : Z) : M unit :=
  if negb ((1 <=? preset_number) && (preset_number <=? 20)) then ret tt
  else
    let thousands := (preset_number / 1000) mod 10 in
    let hundreds := (preset_number / 100) mod 10 in
    let tens := (preset_number / 10) mod 10 in
    let ones := preset_number mod 10 in
    let data :=
      str_of_int tens ++ str_of_int ones ++ str_of_int thousands
      ++ str_of_int hundreds in
    send_command CMD_DIRECT_TRACK_SEARCH data.

Definition clear : M unit := send_command CMD_CLEAR "".
Definition enter : M unit := send_command CMD_ENTER "01".
Definition back : M unit := send_command CMD_BACK "01".
Definition get_total_info : M unit := send_command CMD_TOTAL_TRACK_TIME_SENSE "".

(** The command-issuing methods with their arguments. *)
Inductive Call : Type :=
| CallPlay
| CallStop
| CallEject
| CallNextTrack
| CallPreviousTrack
| CallSearchForward (high_speed : bool)
| CallSearchReverse (high_speed : bool)
| CallGotoTrack (track_number : Z)
| CallSetPlayMode (mode : string)
| CallSetRepeat (enabled : bool)
| CallPause
| CallResume
| CallSetResumeMode (enabled : bool)
| CallSetIncrementalPlay (enabled : bool)
| CallSearchStart (forward high_speed : bool)
| CallSearchStop
| CallSwitchDevice (device : string)
| CallTunerFrequencyUp
| CallTunerFrequencyDown
| CallTunerSeekUp
| CallTunerSeekDown
| CallTunerPreset (preset_number : Z)
| CallClear
| CallEnter
| CallBack
| CallGetTotalInfo.

Definition call (k : Call) : M unit :=
  match k with
  | CallPlay => play
  | CallStop => stop
  | CallEject => eject
  | CallNextTrack => next_track
  | CallPreviousTrack => previous_track
  | CallSearchForward h => search_forward h
  | CallSearchReverse h => search_reverse h
  | CallGotoTrack n => goto_track n
  | CallSetPlayMode m => set_play_mode m
  | CallSetRepeat b => set_repeat b
  | CallPause => pause
  | CallResume => resume
  | CallSetResumeMode b => set_resume_mode b
  | CallSetIncrementalPlay b => set_incremental_play b
  | CallSearchStart f h => search_start f h
  | CallSearchStop => search_stop
  | CallSwitchDevice d => switch_device d
  | CallTunerFrequencyUp => tuner_frequency_up
  | CallTunerFrequencyDown => tuner_frequency_down
  | CallTunerSeekUp => tuner_seek_up
  | CallTunerSeekDown => tuner_seek_down
  | CallTunerPreset n => tuner_preset n
  | CallClear => clear
  | CallEnter => enter
  | CallBack => back
  | CallGetTotalInfo => get_total_info
  end.

(** ** Connection, polling and health supervision

    The model follows one thread at a time.  What the world supplies to it
    (clock readings, whether the port opens, whether a write goes through,
    the bytes waiting on the line) is an argument; starting a thread always
    succeeds, and a sleep changes nothing but later clock readings. *)

(** One write to the port: the clock before, whether the write goes
    through, and the clock after. *)
Record Tx : Type := {
  tx_clock : Time;
  tx_ok : bool;
  tx_clock_after : Time
}.

Definition send_command_now (io : Tx) (command data : string) : M bool :=
  fun c =>
    if negb (connected c) || negb (bool_decide (is_Some (serial c)))
    then (c, Ok false)
    else
      let elapsed := tx_clock io - last_cmd_time c in
      match build_command command data with
      | Raise _ => (c, Ok false)
      | Ok cmd_bytes =>
          if serial_is_open c && tx_ok io
          then (set_last_cmd_time (tx_clock_after io)
                  (set_trace (trace c ++ [EvWrite cmd_bytes]) c), Ok true)
          else (c, Ok false)
      end.

Definition fresh_tid (c : Controller) : Tid := S (length (trace c)).

(** [threading.Thread(target=...)] followed by [start()] *)
Definition start_thread : M Tid :=
  let* t := get fresh_tid in
  do emit (EvStart t) then
  ret t.

Definition connect (open_ok : bool) (io : Tx) : M bool :=
  let* p := get port in
  let* b := get baudrate in
  do emit (EvOpen p b open_ok) then
  if open_ok then
    do modify (set_serial (Some {| is_open := true |})) then
    do modify (set_connected true) then
    do modify (set_running true) then
    let* ct := start_thread in
    do modify (set_cmd_thread (Some ct)) then
    let* pt := start_thread in
    do modify (set_poll_thread (Some pt)) then
    let* _ := send_command_now io CMD_REMOTE_LOCAL_SELECT "01" in
    ret true
  else
    do modify (set_connected false) then
    ret false.

(** [t.join(timeout=1.0)] called by thread [me]: a thread cannot join
    itself.  The threads the controller holds have all been started. *)
Definition join (me t : Tid) : M unit :=
  if Nat.eqb t me then raise RuntimeError else ret tt.

Definition serial_close : M unit :=
  do modify (set_serial (Some {| is_open := false |})) then
  emit EvClose.

(** [disconnect], called by thread [me]. *)
Definition disconnect (me : Tid) : M unit :=
  do modify (set_running false) then
  let* ct := get cmd_thread in
  do (match ct with
      | Some t => join me t
      | None => ret tt
      end) then
  let* pt := get poll_thread in
  do (match pt with
      | Some t => join me t
      | None => ret tt
      end) then
  let* is_open := get serial_is_open in
  do (if is_open then serial_close else ret tt) then
  do modify (set_connected false) then
  do modify (set_consecutive_failures 0) then
  reset_status.

(** What the world supplies to one iteration of the polling loop. *)
Record Tick : Type := {
  tick_clock : Time;
  tick_rx : Inbound;
  tick_open_ok : bool;
  tick_tx : Tx
}.

(** The [try] block of one iteration; the result is [poll_count] as the
    iteration leaves it. *)
Definition poll_try (me : Tid) (poll_count : Z) (tk : Tick) : M Z :=
  let* is_connected := get connected in
  if negb is_connected then
    let current_time := tick_clock tk in
    let* last := get last_reconnect_attempt in
    let* interval := get reconnect_interval in
    do (if interval <=? current_time - last then
          do modify (set_last_reconnect_attempt current_time) then
          let* ok := connect (tick_open_ok tk) (tick_tx tk) in
          if ok then modify (set_consecutive_failures 0) else ret tt
        else ret tt) then
    ret poll_count
  else
    let* response := read_response (tick_rx tk) in
    let* got_response :=
      match response with
      | Some (command, data) =>
          do handle_response command data then
          do modify (set_consecutive_failures 0) then
          ret true
      | None => ret false
      end in
    do send_command CMD_MECHA_STATUS_SENSE "" then
    do send_command CMD_TRACK_NO_SENSE "" then
    do send_command CMD_CURRENT_TRACK_TIME_SENSE "00" then
    do (if poll_count mod 10 =? 0 then
          do send_command CMD_MEDIA_STATUS_SENSE "" then
          do send_command CMD_CURRENT_TRACK_INFO_SENSE "" then
          do send_command CMD_TOTAL_TRACK_TIME_SENSE "" then
          do send_command CMD_PLAY_MODE_SENSE "" then
          send_command CMD_DEVICE_SELECT "FF"
        else ret tt) then
    do (if poll_count mod 30 =? 0 then
          do send_command CMD_RESUME_PLAY_SENSE "" then
          do send_command CMD_REPEAT_SENSE "" then
          do send_command CMD_INCR_PLAY_SENSE "" then
          send_command CMD_REMOTE_LOCAL_SENSE ""
        else ret tt) then
    if negb got_response then
      do modify (fun c =>
           set_consecutive_failures (consecutive_failures c + 1) c) then
      let* failures := get consecutive_failures in
      let* limit := get max_failures_before_disconnect in
      if limit <=? failures then
        do disconnect me then
        ret poll_count
      else ret (poll_count + 1)
    else ret (poll_count + 1).

(** One iteration: the [try] block and its [except Exception] handler. *)
Definition poll_iteration (me : Tid) (poll_count : Z) (tk : Tick) : M Z :=
  try_except (poll_try me poll_count tk)
    (fun _ =>
       do modify (fun c =>
            set_consecutive_failures (consecutive_failures c + 1) c) then
       let* failures := get consecutive_failures in
       let* limit := get max_failures_before_disconnect in
       do (if limit <=? failures then disconnect me else ret tt) then
       ret poll_count).

(** How a run of the loop over the supplied iterations ends: the loop saw
    [running] false and returned, or it is still going. *)
Inductive LoopEnd : Type :=
| Returned
| StillRunning (poll_count : Z).

Fixpoint poll_loop (me : Tid) (poll_count : Z) (ticks : list Tick)
  : M LoopEnd :=
  fun c =>
    if negb (running c) then (c, Ok Returned)
    else
      match ticks with
      | [] => (c, Ok (StillRunning poll_count))
      | tk :: rest =>
          match poll_iteration me poll_count tk c with
          | (c', Ok poll_count') => poll_loop me poll_count' rest c'
          | (c', Raise e) => (c', Raise e)
          end
      end.

(** [_poll_status], run by thread [me]; an exception that leaves it ends
    the thread. *)
Definition poll_status (me : Tid) (ticks : list Tick) : M LoopEnd :=
  poll_loop me 0 ticks.

(** The attempts to open the port that a trace records. *)
Fixpoint open_attempts (tr : list Event) : nat :=
  match tr with
  | [] => 0%nat
  | EvOpen _ _ _ :: tr' => S (open_attempts tr')
  | _ :: tr' => open_attempts tr'
  end.

(** ** Command dispatch *)

(** One iteration of [_process_commands]: the pair at the head of the
    queue, if there is one, is taken off and sent; with an empty queue the
    thread only sleeps.  An exception is logged and the loop goes on. *)
Definition process_iteration (io : Tx) : M unit :=
  try_except
    (let* q := get cmd_queue in
     match q with
     | (command, data) :: rest =>
         do modify (set_cmd_queue rest) then
         let* _ := send_command_now io command data in
         ret tt
     | [] => ret tt
     end)
    (fun _ => ret tt).

(** [_process_commands] over the iterations the world supplies; the
    result tells whether the loop saw [running] false and returned. *)
Fixpoint process_commands (ios : list Tx) : M bool :=
  fun c =>
    if negb (running c) then (c, Ok true)
    else
      match ios with
      | [] => (c, Ok false)
      | io :: rest =>
          match process_iteration io c with
          | (c', Ok _) => process_commands rest c'
          | (c', Raise e) => (c', Raise e)
          end
      end.

(** ** Vocabulary of the statements *)

(** The record [__init__] builds once the speed is accepted. *)
Definition new_controller (p : string) (b : Z) : Controller :=
  match init p b with
  | Ok c => c
  | Raise _ =>
      {| port := p; baudrate := b; serial := None; connected := false;
         cmd_queue := []; last_cmd_time := 0; consecutive_failures := 0;
         max_failures_before_disconnect := 10; reconnect_interval := 5000;
         last_reconnect_attempt := 0; current_status := default_status;
         status_callbacks := []; cmd_thread := None; poll_thread := None;
         running := false; response_buffer := []; trace := [] |}
  end.

(** A write that goes through at clock reading [t]. *)
Definition tx_at (t : Time) : Tx :=
  {| tx_clock := t; tx_ok := true; tx_clock_after := t |}.

(** A controller on the default port with one listener, right after a
    successful [connect]: its command thread is 2 and its polling thread 3. *)
Definition linked : Controller :=
  fst (connect true (tx_at 1000)
         (fst (register_callback 7%nat (new_controller "/dev/ttyUSB0" 9600)))).

(** The bytes of an ASCII string. *)
Fixpoint str_bytes (s : string) : list byte :=
  match s with
  | EmptyString => []
  | String c s' => byte_of_ascii c :: str_bytes s'
  end.

(** A character that can sit inside a frame: ASCII and not the CR that
    ends the frame. *)
Definition frame_char (c : ascii) : bool :=
  is_ascii c && negb (Ascii.eqb c CR).

Fixpoint frame_text (s : string) : bool :=
  match s with
  | EmptyString => true
  | String c s' => frame_char c && frame_text s'
  end.

(** The wire format: LF, device id, two-character code, payload, CR. *)
Definition frame_bytes (id : ascii) (code data : string) : list byte :=
  x0a :: byte_of_ascii id :: str_bytes code ++ str_bytes data ++ [x0d].

(** A frame as the device sends it: any frame character as device id, a
    code of two characters, a payload. *)
Definition well_formed (id : ascii) (code data : string) : bool :=
  frame_char id && (String.length code =? 2)%nat && frame_text code
  && frame_text data.

Fixpoint ascii_text (s : string) : bool :=
  match s with
  | EmptyString => true
  | String c s' => is_ascii c && ascii_text s'
  end.

(** The command codes of the controller. *)
Definition command_codes : list string :=
  [ CMD_STOP; CMD_PLAY; CMD_READY; CMD_SEARCH; CMD_EJECT; CMD_TRACK_SKIP;
    CMD_DIRECT_TRACK_SEARCH; CMD_RESUME_PLAY_SELECT; CMD_RESUME_PLAY_SENSE;
    CMD_REPEAT_SELECT; CMD_REPEAT_SENSE; CMD_INCR_PLAY_SELECT;
    CMD_INCR_PLAY_SENSE; CMD_CLEAR; CMD_REMOTE_LOCAL_SELECT;
    CMD_REMOTE_LOCAL_SENSE; CMD_PLAY_MODE_SELECT; CMD_PLAY_MODE_SENSE;
    CMD_MECHA_STATUS_SENSE; CMD_TRACK_NO_SENSE; CMD_MEDIA_STATUS_SENSE;
    CMD_CURRENT_TRACK_INFO_SENSE; CMD_CURRENT_TRACK_TIME_SENSE;
    CMD_TOTAL_TRACK_TIME_SENSE; CMD_ERROR_SENSE; CMD_CAUTION_SENSE;
    CMD_DEVICE_SELECT; CMD_ENTER; CMD_BACK ].

(** [encode] then [extract] on exactly the encoded bytes gives the pair
    back, on a controller whose port is open. *)
Definition round_trip (c : Controller) (command data : string) : Prop :=
  exists bs,
    build_command command data = Ok bs /\
    snd (read_response (Rx []) (set_response_buffer bs c))
    = Ok (Some (command, data)).

(** The character of a decimal digit [0..9]. *)
Definition digit_char (d : Z) : ascii := ascii_of_N (Z.to_N d + 48).

(** The controller after the status became [st] and the listeners were
    told. *)
Definition notified (st : gmap string Value) (c : Controller) : Controller :=
  set_trace (trace c ++ map (fun l => EvCallback l st) (status_callbacks c))
    (set_current_status st c).

(** The payload length the branch of a response code needs for what it
    reads.  The mechanism status branch reads the first two characters
    ([data[:2]], one status byte written as two characters) and so needs 2;
    it is the one decoding branch without a length test.  Every other
    decoding branch tests the length listed here before it reads anything;
    of the vendor branch, whose outer test asks for 2 characters, the one
    category it decodes asks for 8.  The branches that only send a query or
    log read nothing. *)
Definition min_len (command : string) : nat :=
  if String.eqb command RET_MECHA_STATUS then 2
  else if String.eqb command RET_TRACK_NO then 4
  else if String.eqb command RET_CURRENT_TRACK_TIME then 10
  else if String.eqb command RET_MEDIA_STATUS then 4
  else if String.eqb command RET_CURRENT_TRACK_INFO then 4
  else if String.eqb command RET_PLAY_MODE then 2
  else if String.eqb command RET_TOTAL_TRACK_TIME then 12
  else if String.eqb command RET_VENDOR then 8
  else if String.eqb command RET_RESUME_PLAY then 2
  else if String.eqb command RET_REPEAT then 2
  else if String.eqb command RET_INCR_PLAY then 2
  else if String.eqb command RET_REMOTE_LOCAL then 2
  else if String.eqb command RET_ERROR_SENSE then 2
  else if String.eqb command RET_CAUTION_SENSE then 2
  else 0.

(** Reading a decimal numeral back. *)
Definition nat_of_str (s : string) : option nat :=
  Nat.of_uint <$> NilEmpty.uint_of_string s.

(** The status fields a command-issuing method assigns. *)
Definition written_keys (k : Call) : list string :=
  match k with
  | CallSetPlayMode _ => ["play_mode"]
  | CallSetRepeat _ => ["repeat_mode"]
  | CallSetResumeMode _ => ["resume_mode"]
  | CallSwitchDevice _ => ["device"; "device_name"; "is_tuner"]
  | _ => []
  end.

(** A status without the fields [keys]. *)
Definition without (keys : list string) (st : gmap string Value)
  : gmap string Value :=
  foldr delete st keys.

(** An iteration in which the line brings nothing: no byte is waiting, or
    the port fails to say. *)
Definition quiet (tk : Tick) : bool :=
  match tick_rx tk with
  | Rx [] => true
  | Rx (_ :: _) => false
  | RxFail => true
  end.

(** A quiet iteration at clock reading [t]. *)
Definition quiet_tick (t : Time) : Tick :=
  {| tick_clock := t; tick_rx := Rx []; tick_open_ok := true;
     tick_tx := tx_at t |}.

(** The connected controller once the device reported that it plays
    track 5. *)
Definition linked_playing : Controller :=
  fst (handle_response RET_TRACK_NO "0500"
         (fst (handle_response RET_MECHA_STATUS "11" linked))).

(** The response codes [_handle_response] has a branch for. *)
Definition response_codes : list string :=
  [ RET_MECHA_STATUS; RET_TRACK_NO; RET_CURRENT_TRACK_TIME; RET_MEDIA_STATUS;
    RET_CURRENT_TRACK_INFO; RET_PLAY_MODE; RET_TOTAL_TRACK_TIME; RET_VENDOR;
    RET_RESUME_PLAY; RET_REPEAT; RET_INCR_PLAY; RET_REMOTE_LOCAL;
    RET_ERROR_SENSE; RET_CAUTION_SENSE; RET_CHANGE_STATUS;
    RET_ERROR_SENSE_REQUEST; RET_CAUTION_SENSE_REQUEST; RET_ILLEGAL_STATUS ].

(** The status fields the branch of a response code assigns. *)
Definition decoder_keys (command : string) : list string :=
  if String.eqb command RET_MECHA_STATUS then ["mecha_status"]
  else if String.eqb command RET_TRACK_NO then ["track_number"]
  else if String.eqb command RET_CURRENT_TRACK_TIME then ["time_elapsed"]
  else if String.eqb command RET_MEDIA_STATUS
    then ["media_present"; "media_type"]
  else if String.eqb command RET_CURRENT_TRACK_INFO then ["current_track"]
  else if String.eqb command RET_PLAY_MODE then ["play_mode"]
  else if String.eqb command RET_TOTAL_TRACK_TIME
    then ["total_tracks"; "total_time"]
  else if String.eqb command RET_VENDOR
    then ["device"; "device_name"; "is_tuner"]
  else if String.eqb command RET_RESUME_PLAY then ["resume_mode"]
  else if String.eqb command RET_REPEAT then ["repeat_mode"]
  else if String.eqb command RET_INCR_PLAY then ["incremental_play"]
  else if String.eqb command RET_REMOTE_LOCAL then ["remote_local_mode"]
  else if String.eqb command RET_ERROR_SENSE then ["error_status"]
  else if String.eqb command RET_CAUTION_SENSE then ["caution_status"]
  else [].

(** The queries one polling iteration queues, by its count. *)
Definition poll_queries (poll_count : Z) : list (string * string) :=
  ([ (CMD_MECHA_STATUS_SENSE, ""); (CMD_TRACK_NO_SENSE, "");
     (CMD_CURRENT_TRACK_TIME_SENSE, "00") ]
   ++ (if poll_count mod 10 =? 0
       then [ (CMD_MEDIA_STATUS_SENSE, ""); (CMD_CURRENT_TRACK_INFO_SENSE, "");
              (CMD_TOTAL_TRACK_TIME_SENSE, ""); (CMD_PLAY_MODE_SENSE, "");
              (CMD_DEVICE_SELECT, "FF") ]
       else [])
   ++ (if poll_count mod 30 =? 0
       then [ (CMD_RESUME_PLAY_SENSE, ""); (CMD_REPEAT_SENSE, "");
              (CMD_INCR_PLAY_SENSE, ""); (CMD_REMOTE_LOCAL_SENSE, "") ]
       else []))%list.

(** The writes to the port that a trace records, oldest first. *)
Fixpoint writes (tr : list Event) : list (list byte) :=
  match tr with
  | [] => []
  | EvWrite bs :: tr' => bs :: writes tr'
  | _ :: tr' => writes tr'
  end.

(** The frame a queued pair is sent as. *)
Definition frame_of (cmd : string * string) : list byte :=
  frame_bytes "0" (fst cmd) (snd cmd).

(** A queued pair that [_build_command] can encode. *)
Definition encodable (cmd : string * string) : bool :=
  ascii_text (fst cmd) && ascii_text (snd cmd).

(** The closings of the port that a trace records. *)
Fixpoint closings (tr : list Event) : nat :=
  match tr with
  | [] => 0%nat
  | EvClose :: tr' => S (closings tr')
  | _ :: tr' => closings tr'
  end.

(** The flags of one byte checked against its bits: the list is empty
    exactly when none of the bits in [used] is set, and the name at
    position [i] of the table is listed exactly when bit [i] is set. *)
Definition flags_agree (bits : list (Z * string)) (used : Z) (raw : Z) : bool :=
  Bool.eqb (0 <? length (flag_names raw bits))%nat
           (negb (Z.land raw used =? 0))
  && forallb (fun i : nat =>
       match map snd bits !! i with
       | Some name =>
           Bool.eqb (bool_decide (name ∈ flag_names raw bits))
                    (Z.testbit raw (Z.of_nat i))
       | None => true
       end) (seq 0 8).

(** ** Frame codec: proofs *)

Section Codec.

Lemma byte_of_frame_char_not_cr (c : ascii) :
  frame_char c = true -> Byte.eqb (byte_of_ascii c) x0d = false.
Proof.
  unfold frame_char. intros H.
  apply andb_prop in H as [_ H].
  destruct (Byte.eqb (byte_of_ascii c) x0d) eqn:E; [|reflexivity].
  apply Byte.byte_dec_bl in E.
  apply (f_equal ascii_of_byte) in E.
  rewrite ascii_of_byte_of_ascii in E. subst c.
  discriminate H.
Qed.

Lemma length_str_bytes (s : string) : length (str_bytes s) = String.length s.
Proof. induction s as [|a s IH]; simpl; congruence. Qed.

Lemma append_cons (a : ascii) (s t : string) :
  String a s ++ t = String a (s ++ t).
Proof. reflexivity. Qed.

Lemma append_nil (t : string) : EmptyString ++ t = t.
Proof. reflexivity. Qed.

Lemma str_bytes_app (s t : string) :
  str_bytes (s ++ t) = (str_bytes s ++ str_bytes t)%list.
Proof.
  induction s as [|a s IH]; [reflexivity|].
  rewrite append_cons. simpl. rewrite IH. reflexivity.
Qed.

Lemma frame_text_app (s t : string) :
  frame_text (s ++ t) = frame_text s && frame_text t.
Proof.
  induction s as [|a s IH]; [reflexivity|].
  rewrite append_cons. simpl. rewrite IH. apply andb_assoc.
Qed.

Lemma bytes_index_cr (s : string) (rest : list byte) :
  frame_text s = true ->
  bytes_index x0d (str_bytes s ++ x0d :: rest)%list = Some (String.length s).
Proof.
  induction s as [|a s IH]; simpl; intros H; [reflexivity|].
  apply andb_prop in H as [Ha Hs].
  rewrite (byte_of_frame_char_not_cr a Ha), (IH Hs). reflexivity.
Qed.

Lemma decode_str_bytes (s : string) :
  frame_text s = true -> decode_ascii_ignore (str_bytes s) = s.
Proof.
  induction s as [|a s IH]; simpl; intros H; [reflexivity|].
  apply andb_prop in H as [Ha Hs].
  rewrite ascii_of_byte_of_ascii.
  unfold frame_char in Ha. apply andb_prop in Ha as [Ha _].
  rewrite Ha, (IH Hs). reflexivity.
Qed.

Lemma encode_str_bytes (s : string) :
  frame_text s = true -> encode_ascii s = Ok (str_bytes s).
Proof.
  induction s as [|a s IH]; simpl; intros H; [reflexivity|].
  apply andb_prop in H as [Ha Hs].
  unfold frame_char in Ha. apply andb_prop in Ha as [Ha _].
  rewrite Ha, (IH Hs). reflexivity.
Qed.

Lemma length_append (s t : string) :
  String.length (s ++ t) = (String.length s + String.length t)%nat.
Proof.
  induction s as [|a s IH]; [reflexivity|].
  rewrite append_cons. simpl. rewrite IH. reflexivity.
Qed.

(** The code and the payload that the slices of [_read_response] cut out
    of a frame body. *)
Lemma slices_of_body (id : ascii) (code data : string) :
  String.length code = 2%nat ->
  let body := String id (code ++ data) in
  str_slice 1 3 body = code /\
  (if (3 <? String.length body)%nat then str_drop 3 body else EmptyString)
  = data.
Proof.
  intros Hlen body. subst body.
  destruct code as [|a [|b [|? ?]]]; try discriminate Hlen.
  rewrite !append_cons, append_nil.
  split; destruct data; reflexivity.
Qed.

(** One call on a buffer that starts with a complete frame: the frame is
    returned and the buffer keeps what follows it. *)
Lemma read_response_frame (c : Controller) (id : ascii) (code data : string)
    (rest : list byte) :
  serial_is_open c = true ->
  frame_char id = true ->
  String.length code = 2%nat ->
  frame_text code = true ->
  frame_text data = true ->
  response_buffer c = (frame_bytes id code data ++ rest)%list ->
  read_response (Rx []) c
  = (set_response_buffer rest c, Ok (Some (code, data))).
Proof.
  intros Hopen Hid Hlen Hcode Hdata Hbuf.
  set (body := String id (code ++ data)).
  assert (Hbody : frame_text body = true).
  { subst body. cbn [frame_text].
    rewrite Hid, frame_text_app, Hcode, Hdata. reflexivity. }
  assert (Hwire : response_buffer c = (x0a :: str_bytes body ++ x0d :: rest)%list).
  { rewrite Hbuf. unfold frame_bytes. subst body. cbn [str_bytes].
    rewrite str_bytes_app, <- !app_comm_cons, <- !app_assoc. reflexivity. }
  assert (Hblen : (3 <=? String.length body)%nat = true).
  { subst body. cbn [String.length]. rewrite length_append, Hlen.
    reflexivity. }
  unfold read_response. rewrite Hopen. simpl negb. cbv iota.
  change (0 <? length (@nil byte))%nat with false. cbv iota.
  rewrite Hwire.
  change (bytes_index x0d (x0a :: str_bytes body ++ x0d :: rest)%list)
    with (S <$> bytes_index x0d (str_bytes body ++ x0d :: rest)%list).
  rewrite (bytes_index_cr body rest Hbody). cbn [fmap option_fmap option_map].
  assert (Htake : take (S (String.length body))
                    (x0a :: str_bytes body ++ x0d :: rest)%list
                  = x0a :: str_bytes body).
  { cbn [take]. f_equal. rewrite <- (length_str_bytes body).
    apply take_app_length. }
  assert (Hdrop : drop (S (String.length body) + 1)
                    (x0a :: str_bytes body ++ x0d :: rest)%list = rest).
  { replace (S (String.length body) + 1)%nat
      with (S (length (str_bytes body ++ [x0d])%list))
      by (rewrite length_app, length_str_bytes; simpl; lia).
    cbn [drop].
    replace (str_bytes body ++ x0d :: rest)%list
      with ((str_bytes body ++ [x0d]) ++ rest)%list
      by (rewrite <- app_assoc; reflexivity).
    apply drop_app_length. }
  rewrite Htake, Hdrop.
  assert (Hmlen : (3 <=? length (x0a :: str_bytes body))%nat = true).
  { cbn [length]. rewrite length_str_bytes.
    apply Nat.leb_le. apply Nat.leb_le in Hblen. lia. }
  rewrite Hmlen.
  change (byte_at_is (x0a :: str_bytes body) 0 x0a) with true.
  cbn [andb drop]. rewrite drop_0.
  rewrite (decode_str_bytes body Hbody), Hblen.
  destruct (slices_of_body id code data Hlen) as [Hc Hd].
  fold body in Hc, Hd. rewrite Hc, Hd. reflexivity.
Qed.

Lemma ascii_text_app (s t : string) :
  ascii_text (s ++ t) = ascii_text s && ascii_text t.
Proof.
  induction s as [|a s IH]; [reflexivity|].
  rewrite append_cons. simpl. rewrite IH. apply andb_assoc.
Qed.

Lemma frame_text_ascii (s : string) :
  frame_text s = true -> ascii_text s = true.
Proof.
  induction s as [|a s IH]; simpl; intros H; [reflexivity|].
  apply andb_prop in H as [Ha Hs].
  unfold frame_char in Ha. apply andb_prop in Ha as [Ha _].
  rewrite Ha, (IH Hs). reflexivity.
Qed.

Lemma encode_ascii_text (s : string) :
  ascii_text s = true -> encode_ascii s = Ok (str_bytes s).
Proof.
  induction s as [|a s IH]; simpl; intros H; [reflexivity|].
  apply andb_prop in H as [Ha Hs].
  rewrite Ha, (IH Hs). reflexivity.
Qed.

(** The frame [_build_command] produces for a code and a payload without
    characters above 127. *)
Lemma build_command_frame (command data : string) :
  ascii_text command = true ->
  ascii_text data = true ->
  build_command command data = Ok (frame_bytes "0" command data).
Proof.
  intros Hc Hd. unfold build_command.
  destruct (startswith "7F" command || startswith "FF" command).
  all: rewrite encode_ascii_text.
  all: try (unfold MACHINE_ID; rewrite append_cons, append_nil;
            cbn [ascii_text]; rewrite !ascii_text_app, Hc, Hd; reflexivity).
  all: unfold MACHINE_ID, frame_bytes; rewrite append_cons, append_nil;
       cbn [str_bytes]; rewrite !str_bytes_app; reflexivity.
Qed.

Lemma well_formed_parts (id : ascii) (code data : string) :
  well_formed id code data = true ->
  frame_char id = true /\ String.length code = 2%nat /\
  frame_text code = true /\ frame_text data = true.
Proof.
  unfold well_formed. intros H.
  apply andb_prop in H as [H Hd]. apply andb_prop in H as [H Hc].
  apply andb_prop in H as [Hi Hl]. apply Nat.eqb_eq in Hl. auto.
Qed.

End Codec.

(** C4 (as stated it fails).  The round trip breaks on a vendor command
    code, which is longer than the two characters extraction takes as the
    code: [7F01] with payload [FF] comes back as code [7F] and payload
    [01FF].  It also breaks on a payload that holds a CR, where the frame
    is cut short, and on a payload with a character above 127, which
    [_build_command] refuses to encode. *)
Lemma round_trip_counterexample :
  CMD_DEVICE_SELECT ∈ command_codes /\ CMD_STOP ∈ command_codes /\
  serial_is_open linked = true /\
  (exists bs, build_command CMD_DEVICE_SELECT "FF" = Ok bs /\
     snd (read_response (Rx []) (set_response_buffer bs linked))
     = Ok (Some ("7F", "01FF"))) /\
  ~ round_trip linked CMD_DEVICE_SELECT "FF" /\
  ~ round_trip linked CMD_STOP (String CR EmptyString) /\
  ~ round_trip linked CMD_STOP (String "233" EmptyString).
Proof.
  split; [compute_done|]. split; [compute_done|].
  split; [reflexivity|].
  split; [eexists; split; [reflexivity|vm_compute; reflexivity]|].
  repeat split.
  - intros (bs & Hb & Hr). vm_compute in Hb. injection Hb as <-.
    vm_compute in Hr. discriminate Hr.
  - intros (bs & Hb & Hr). vm_compute in Hb. injection Hb as <-.
    vm_compute in Hr. discriminate Hr.
  - intros (bs & Hb & Hr). vm_compute in Hb. discriminate Hb.
Qed.

(** C4 (amended).  For every command code of exactly two characters and
    every payload, both made of ASCII characters other than CR, encoding
    the pair with [_build_command] and extracting a frame from exactly
    those bytes with [_read_response] gives the pair back. *)
Theorem round_trip_two_char_code (c : Controller) (command data : string) :
  serial_is_open c = true ->
  String.length command = 2%nat ->
  frame_text command = true ->
  frame_text data = true ->
  round_trip c command data.
Proof.
  intros Hopen Hlen Hc Hd.
  exists (frame_bytes "0" command data). split.
  - apply build_command_frame; apply frame_text_ascii; assumption.
  - rewrite (read_response_frame (set_response_buffer _ c) "0" command data []).
    + reflexivity.
    + exact Hopen.
    + reflexivity.
    + exact Hlen.
    + exact Hc.
    + exact Hd.
    + cbn [response_buffer set_response_buffer]. rewrite app_nil_r.
      reflexivity.
Qed.

Lemma round_trip_two_char_code_witness :
  serial_is_open linked = true /\
  String.length CMD_TRACK_SKIP = 2%nat /\
  frame_text CMD_TRACK_SKIP = true /\
  frame_text "01" = true /\
  round_trip linked CMD_TRACK_SKIP "01".
Proof.
  repeat split; try reflexivity.
  apply round_trip_two_char_code; reflexivity.
Defined.

(** C7.  When the buffer holds two complete frames one after the other, a
    first call of [_read_response] returns the first frame and leaves the
    second one whole in the buffer, and a second call returns the second
    frame and leaves the buffer empty: one frame per call, none merged,
    none dropped. *)
Theorem two_frames_one_per_call (c : Controller)
    (id1 : ascii) (code1 data1 : string) (id2 : ascii) (code2 data2 : string) :
  serial_is_open c = true ->
  well_formed id1 code1 data1 = true ->
  well_formed id2 code2 data2 = true ->
  response_buffer c
  = (frame_bytes id1 code1 data1 ++ frame_bytes id2 code2 data2)%list ->
  let first := read_response (Rx []) c in
  let second := read_response (Rx []) (fst first) in
  snd first = Ok (Some (code1, data1)) /\
  response_buffer (fst first) = frame_bytes id2 code2 data2 /\
  snd second = Ok (Some (code2, data2)) /\
  response_buffer (fst second) = [].
Proof.
  intros Hopen H1 H2 Hbuf first second.
  apply well_formed_parts in H1 as (Hi1 & Hl1 & Hc1 & Hd1).
  apply well_formed_parts in H2 as (Hi2 & Hl2 & Hc2 & Hd2).
  assert (E1 : first = (set_response_buffer (frame_bytes id2 code2 data2) c,
                        Ok (Some (code1, data1)))).
  { subst first. apply (read_response_frame c id1); assumption. }
  assert (E2 : second = (set_response_buffer [] c, Ok (Some (code2, data2)))).
  { subst second. rewrite E1. cbn [fst].
    rewrite (read_response_frame _ id2 code2 data2 []); try assumption.
    - reflexivity.
    - cbn [response_buffer set_response_buffer]. rewrite app_nil_r.
      reflexivity. }
  rewrite E2, E1. repeat split.
Qed.

Lemma two_frames_one_per_call_witness :
  let c := set_response_buffer
             (frame_bytes "0" "D0" "11" ++ frame_bytes "0" "D5" "0300")%list
             linked in
  let first := read_response (Rx []) c in
  let second := read_response (Rx []) (fst first) in
  serial_is_open c = true /\
  well_formed "0" "D0" "11" = true /\
  well_formed "0" "D5" "0300" = true /\
  snd first = Ok (Some ("D0", "11")) /\
  response_buffer (fst first) = frame_bytes "0" "D5" "0300" /\
  snd second = Ok (Some ("D5", "0300")) /\
  response_buffer (fst second) = [].
Proof.
  intros c first second.
  split; [reflexivity|]. split; [reflexivity|]. split; [reflexivity|].
  apply (two_frames_one_per_call c "0" "D0" "11" "0" "D5" "0300");
    reflexivity.
Defined.

(** C10.  [_read_response] accepts a well-formed frame whatever character
    sits in the device-id position: the frame is returned with its code and
    payload, exactly as the frame that carries [MACHINE_ID] is; the id is
    never compared with anything. *)
Theorem device_id_not_checked (c : Controller) (id : ascii)
    (code data : string) (rest : list byte) :
  serial_is_open c = true ->
  well_formed id code data = true ->
  response_buffer c = (frame_bytes id code data ++ rest)%list ->
  read_response (Rx []) c
  = (set_response_buffer rest c, Ok (Some (code, data))) /\
  snd (read_response (Rx []) c)
  = snd (read_response (Rx [])
           (set_response_buffer (frame_bytes "0" code data ++ rest)%list c)).
Proof.
  intros Hopen Hwf Hbuf.
  apply well_formed_parts in Hwf as (Hi & Hl & Hc & Hd).
  rewrite (read_response_frame c id code data rest) by assumption.
  split; [reflexivity|].
  rewrite (read_response_frame _ "0" code data rest); auto.
Qed.

Lemma device_id_not_checked_witness :
  let c := set_response_buffer (frame_bytes "7" "D0" "11") linked in
  serial_is_open c = true /\
  well_formed "7" "D0" "11" = true /\
  "7"%char <> "0"%char /\
  read_response (Rx []) c
  = (set_response_buffer [] c, Ok (Some ("D0", "11"))).
Proof.
  intros c.
  split; [reflexivity|]. split; [reflexivity|]. split; [discriminate|].
  apply (device_id_not_checked c "7" "D0" "11" []); reflexivity.
Defined.

(** ** Response decoder: proofs *)

Section Decoder.

Example fmt_02d_samples :
  fmt_02d 0 = "00" /\ fmt_02d 5 = "05" /\ fmt_02d 30 = "30" /\ fmt_02d 105 = "105".
Proof. repeat split; reflexivity. Qed.

Example int_hex2_samples :
  int_hex2 "05" = Ok 5%Z /\ int_hex2 "fF" = Ok 255%Z /\
  int_hex2 "-5" = Ok (-5)%Z /\ int_hex2 "0x" = Raise ValueError.
Proof. repeat split; reflexivity. Qed.

Example error_sense_samples :
  current_status (fst (handle_response RET_ERROR_SENSE "05" linked))
    !! "error_status"
  = Some (VDict [ ("raw", VInt 5);
                  ("errors", VList [VStr "focus_error"; VStr "spindle_error"]);
                  ("has_error", VBool true) ]) /\
  current_status (fst (handle_response RET_ERROR_SENSE "00" linked))
    !! "error_status"
  = Some (VDict [ ("raw", VInt 0); ("errors", VList []);
                  ("has_error", VBool false) ]) /\
  flag_names 0x90 error_bits = ["tray_error"; "other_error"].
Proof. repeat split; vm_compute; reflexivity. Qed.

(** Case analysis on a decimal digit: a goal about [d] within [0..9]
    is settled by trying the ten values. *)
Ltac each_digit d :=
  let n := fresh "n" in
  let E := fresh "E" in
  assert (E : d = Z.of_nat (Z.to_nat d)) by lia;
  assert (Z.to_nat d < 10)%nat by lia;
  generalize dependent (Z.to_nat d); intros n ? ?; subst d;
  do 10 (destruct n as [|n]; [reflexivity|]); lia.

Lemma int_char_digit (d : Z) : 0 <= d <= 9 -> int_char (digit_char d) = Ok d.
Proof. intros H. each_digit d. Qed.

Lemma fmt_02d_one_digit (n : Z) :
  0 <= n <= 9 -> fmt_02d n = String "0" (String (digit_char n) EmptyString).
Proof. intros H. each_digit n. Qed.

Lemma nat_of_str_of_nat (k : nat) : nat_of_str (str_of_nat k) = Some k.
Proof.
  unfold nat_of_str, str_of_nat.
  rewrite NilEmpty.usu. simpl. f_equal. apply DecimalNat.Unsigned.of_to.
Qed.

(** The text [{n:02d}] reads back as [n]: nothing is cut off, whatever
    the number of digits. *)
Lemma fmt_02d_reads_back (n : Z) :
  0 <= n -> nat_of_str (fmt_02d n) = Some (Z.to_nat n).
Proof.
  intros _. unfold fmt_02d.
  pose proof (nat_of_str_of_nat (Z.to_nat n)) as Hk.
  destruct (String.length (str_of_nat (Z.to_nat n)) <? 2)%nat; [|exact Hk].
  unfold nat_of_str in *.
  change (NilEmpty.uint_of_string ("0" ++ str_of_nat (Z.to_nat n)))
    with (uint_of_char "0" (NilEmpty.uint_of_string (str_of_nat (Z.to_nat n)))).
  destruct (NilEmpty.uint_of_string (str_of_nat (Z.to_nat n))) as [d|];
    [|discriminate Hk].
  exact Hk.
Qed.

Ltac run_decoder :=
  unfold handle_response, decode_response;
  cbv [RET_MECHA_STATUS RET_TRACK_NO RET_CURRENT_TRACK_TIME String.eqb
       Ascii.eqb Bool.eqb String.length Nat.leb bind lift int_at str_at rbind
       String.get];
  rewrite ?int_char_digit by assumption.

(** C3 (as stated it fails).  The digit string [1230] is decoded to track
    3012, not to track 31: the third digit counts thousands. *)
Lemma track_1230_is_3012 :
  current_status (fst (handle_response RET_TRACK_NO "1230" linked))
    !! "track_number" = Some (VInt 3012) /\
  current_status (fst (handle_response RET_TRACK_NO "1230" linked))
    !! "track_number" <> Some (VInt 31).
Proof.
  assert (E : current_status (fst (handle_response RET_TRACK_NO "1230" linked))
                !! "track_number" = Some (VInt 3012))
    by (vm_compute; reflexivity).
  split; [exact E|]. rewrite E. discriminate.
Qed.

(** C3 (amended).  The track-number decode reads the four digits of the
    payload in the order tens, ones, thousands, hundreds, stores
    thousands * 1000 + hundreds * 100 + tens * 10 + ones as the track number
    and tells the listeners; so [1230] (tens 1, ones 2, thousands 3,
    hundreds 0) gives track 3012 and [0000] gives track 0. *)
Theorem track_number_wire_order (c : Controller) (tens ones thousands
    hundreds : Z) (rest : string) :
  0 <= tens <= 9 -> 0 <= ones <= 9 ->
  0 <= thousands <= 9 -> 0 <= hundreds <= 9 ->
  handle_response RET_TRACK_NO
    (String (digit_char tens) (String (digit_char ones)
       (String (digit_char thousands) (String (digit_char hundreds) rest)))) c
  = (notified
       (<["track_number" :=
            VInt (thousands * 1000 + hundreds * 100 + tens * 10 + ones)]>
          (current_status c)) c,
     Ok tt).
Proof.
  intros Ht Ho Hth Hh. run_decoder. reflexivity.
Qed.

Lemma track_number_wire_order_witness :
  handle_response RET_TRACK_NO "1230" linked
  = (notified (<["track_number" := VInt 3012]> (current_status linked)) linked,
     Ok tt) /\
  handle_response RET_TRACK_NO "0000" linked
  = (notified (<["track_number" := VInt 0]> (current_status linked)) linked,
     Ok tt).
Proof.
  split.
  - apply (track_number_wire_order linked 1 2 3 0 EmptyString); lia.
  - apply (track_number_wire_order linked 0 0 0 0 EmptyString); lia.
Defined.

(** C8.  For a payload of at least 10 characters whose characters 2 to 7
    are decimal digits, the track-time decode takes the minutes from the
    four digits 2..5 in the order tens, ones, thousands, hundreds and the
    seconds from the two digits 6..7, and stores minutes and seconds, each
    formatted with [02d], around a colon.  The minutes text reads back as
    the minutes whatever their size (105 gives [105], nothing is cut off),
    and a value below 10 is padded with a zero. *)
Theorem track_time_decode (c : Controller) (a b : ascii)
    (min_tens min_ones min_thousands min_hundreds sec_tens sec_ones : Z)
    (rest : string) :
  0 <= min_tens <= 9 -> 0 <= min_ones <= 9 ->
  0 <= min_thousands <= 9 -> 0 <= min_hundreds <= 9 ->
  0 <= sec_tens <= 9 -> 0 <= sec_ones <= 9 ->
  (2 <= String.length rest)%nat ->
  let data :=
    String a (String b
      (String (digit_char min_tens) (String (digit_char min_ones)
        (String (digit_char min_thousands) (String (digit_char min_hundreds)
          (String (digit_char sec_tens) (String (digit_char sec_ones)
            rest))))))) in
  let minutes :=
    min_thousands * 1000 + min_hundreds * 100 + min_tens * 10 + min_ones in
  let seconds := sec_tens * 10 + sec_ones in
  (10 <= String.length data)%nat /\
  handle_response RET_CURRENT_TRACK_TIME data c
  = (notified
       (<["time_elapsed" := VStr (fmt_02d minutes ++ ":" ++ fmt_02d seconds)]>
          (current_status c)) c,
     Ok tt) /\
  nat_of_str (fmt_02d minutes) = Some (Z.to_nat minutes) /\
  nat_of_str (fmt_02d seconds) = Some (Z.to_nat seconds) /\
  (minutes <= 9 ->
   fmt_02d minutes = String "0" (String (digit_char minutes) EmptyString)) /\
  (seconds <= 9 ->
   fmt_02d seconds = String "0" (String (digit_char seconds) EmptyString)).
Proof.
  intros Hmt Hmo Hmth Hmh Hst Hso Hrest data minutes seconds.
  split; [subst data; cbn [String.length]; lia|].
  split.
  - subst data minutes seconds.
    destruct rest as [|r1 [|r2 rest]]; cbn [String.length] in Hrest; try lia.
    run_decoder. reflexivity.
  - split; [apply fmt_02d_reads_back; lia|].
    split; [apply fmt_02d_reads_back; lia|].
    split; intros Hle; apply fmt_02d_one_digit; lia.
Qed.

Lemma track_time_decode_witness :
  handle_response RET_CURRENT_TRACK_TIME "0005013000" linked
  = (notified (<["time_elapsed" := VStr "105:30"]> (current_status linked))
       linked,
     Ok tt).
Proof.
  exact (proj1 (proj2
    (track_time_decode linked "0" "0" 0 5 0 1 3 0 "00"
       ltac:(lia) ltac:(lia) ltac:(lia) ltac:(lia) ltac:(lia) ltac:(lia)
       ltac:(simpl; lia)))).
Defined.

Lemma status_map_key_length (key name : string) :
  status_map !! key = Some name -> String.length key = 2%nat.
Proof.
  unfold status_map. intros E. apply elem_of_list_to_map_2 in E.
  repeat (apply elem_of_cons in E as [E|E];
          [injection E as -> _; reflexivity|]).
  apply elem_of_nil in E. destruct E.
Qed.

(** A payload of fewer than two characters is no key of the table of
    mechanism states. *)
Lemma short_mecha_status_unknown (data : string) :
  (String.length data < 2)%nat ->
  dict_get status_map (str_take 2 data) "unknown" = "unknown".
Proof.
  intros Hlen. unfold dict_get.
  destruct (status_map !! str_take 2 data) as [name|] eqn:E; [|reflexivity].
  apply status_map_key_length in E.
  destruct data as [|a [|b rest]]; cbn in E, Hlen; [discriminate E .. | lia].
Qed.

(** The mechanism status branch has no length test: it decodes whatever
    payload it is given, an empty one to [unknown]. *)
Lemma mecha_status_decodes_any_payload (c : Controller) :
  handle_response RET_MECHA_STATUS EmptyString c
  = (notified (<["mecha_status" := VStr "unknown"]> (current_status c)) c,
     Ok tt).
Proof. reflexivity. Qed.

(** C1 (the code departs from it in one branch).  For every response code
    other than the mechanism status and every payload shorter than the
    length the code's branch needs, [_handle_response] returns without
    raising and leaves the whole controller as it was: no status field is
    written, no listener is called, nothing is queued.  The mechanism
    status branch lacks the length test of the other branches: for a payload
    shorter than the two characters it reads, it does not raise either, but
    it assigns [unknown] to the mechanism status and calls every listener;
    a mechanism status other than [unknown] is thereby changed, and with a
    listener registered a notification is made. *)
Theorem short_payload_ignored_but_mecha_status
    (c : Controller) (command data : string) :
  (String.length data < min_len command)%nat ->
  (command <> RET_MECHA_STATUS ->
   handle_response command data c = (c, Ok tt)) /\
  (command = RET_MECHA_STATUS ->
   handle_response command data c
   = (notified (<["mecha_status" := VStr "unknown"]> (current_status c)) c,
      Ok tt) /\
   (current_status c !! "mecha_status" <> Some (VStr "unknown") ->
    current_status (fst (handle_response command data c))
    <> current_status c) /\
   (status_callbacks c <> [] ->
    trace (fst (handle_response command data c)) <> trace c)).
Proof.
  intros Hlen. split.
  - intros Hne. apply String.eqb_neq in Hne. revert Hlen.
    unfold handle_response, decode_response, min_len, bind.
    rewrite Hne.
    repeat match goal with
           | |- context [String.eqb command ?k] =>
               destruct (String.eqb command k)
           end;
      intros H; try (exfalso; lia);
      try (apply Nat.leb_gt in H; rewrite H; reflexivity).
    (* the vendor branch: its two outer tests do not decide *)
    destruct (2 <=? String.length data)%nat; [|reflexivity].
    destruct (String.eqb (str_take 2 data) "01"); [|reflexivity].
    apply Nat.leb_gt in H. rewrite H. reflexivity.
  - intros ->. change (min_len RET_MECHA_STATUS) with 2%nat in Hlen.
    assert (E : handle_response RET_MECHA_STATUS data c
                = (notified (<["mecha_status" := VStr "unknown"]>
                               (current_status c)) c, Ok tt)).
    { unfold handle_response, decode_response.
      change (String.eqb RET_MECHA_STATUS RET_MECHA_STATUS) with true.
      cbv beta iota zeta.
      rewrite (short_mecha_status_unknown data Hlen). reflexivity. }
    rewrite E. split; [reflexivity|].
    unfold notified. destruct c. cbn. split.
    + intros Hne Heq. apply Hne. rewrite <- Heq. apply lookup_insert_eq.
    + intros Hcb Heq. apply (f_equal length) in Heq.
      rewrite length_app, length_map in Heq.
      destruct status_callbacks0; [congruence|]. cbn in Heq. lia.
Qed.

Lemma short_payload_ignored_but_mecha_status_witness :
  (String.length "1" < min_len RET_MECHA_STATUS)%nat /\
  snd (read_response (Rx (frame_bytes "0" RET_MECHA_STATUS "1")) linked_playing)
  = Ok (Some (RET_MECHA_STATUS, "1")) /\
  current_status linked_playing !! "mecha_status" = Some (VStr "play") /\
  handle_response RET_MECHA_STATUS "1" linked_playing
  = (notified (<["mecha_status" := VStr "unknown"]>
                 (current_status linked_playing)) linked_playing,
     Ok tt) /\
  current_status (fst (handle_response RET_MECHA_STATUS "1" linked_playing))
  <> current_status linked_playing /\
  trace (fst (handle_response RET_MECHA_STATUS "1" linked_playing))
  <> trace linked_playing /\
  (String.length "123" < min_len RET_TRACK_NO)%nat /\
  handle_response RET_TRACK_NO "123" linked_playing = (linked_playing, Ok tt).
Proof.
  assert (Hlen : (String.length "1" < min_len RET_MECHA_STATUS)%nat)
    by (vm_compute; lia).
  assert (Hlen' : (String.length "123" < min_len RET_TRACK_NO)%nat)
    by (vm_compute; lia).
  split; [exact Hlen|]. split; [vm_compute; reflexivity|].
  split; [vm_compute; reflexivity|].
  split; [|split; [|split; [|split; [exact Hlen'|]]]].
  - exact (proj1 (proj2 (short_payload_ignored_but_mecha_status
                           linked_playing RET_MECHA_STATUS "1" Hlen) eq_refl)).
  - apply (proj1 (proj2 (proj2 (short_payload_ignored_but_mecha_status
                           linked_playing RET_MECHA_STATUS "1" Hlen) eq_refl))).
    vm_compute. discriminate.
  - apply (proj2 (proj2 (proj2 (short_payload_ignored_but_mecha_status
                           linked_playing RET_MECHA_STATUS "1" Hlen) eq_refl))).
    vm_compute. discriminate.
  - apply (proj1 (short_payload_ignored_but_mecha_status
                    linked_playing RET_TRACK_NO "123" Hlen')).
    vm_compute. discriminate.
Defined.

End Decoder.

(** ** Command-issuing operations: proofs *)

Section Calls.

Lemma without_insert (key : string) (v : Value) (st : gmap string Value) :
  without [key] (<[key := v]> st) = without [key] st.
Proof. unfold without. simpl. apply delete_insert_eq. Qed.

(** C2 (as stated it fails).  Four command-issuing methods assign status
    fields themselves, before any response arrives. *)
Lemma calls_write_status :
  current_status linked !! "repeat_mode" = Some (VBool false) /\
  current_status (fst (call (CallSetRepeat true) linked)) !! "repeat_mode"
  = Some (VBool true) /\
  current_status (fst (call (CallSetResumeMode true) linked)) !! "resume_mode"
  = Some (VBool true) /\
  current_status (fst (call (CallSetPlayMode "random") linked)) !! "play_mode"
  = Some (VStr "random") /\
  current_status (fst (call (CallSwitchDevice "FM") linked)) !! "device"
  = Some (VStr "fm") /\
  current_status (fst (call (CallSetRepeat true) linked))
  <> current_status linked.
Proof.
  assert (E : current_status (fst (call (CallSetRepeat true) linked))
                !! "repeat_mode" = Some (VBool true))
    by (vm_compute; reflexivity).
  assert (E0 : current_status linked !! "repeat_mode" = Some (VBool false))
    by (vm_compute; reflexivity).
  split; [exact E0|]. split; [exact E|].
  split; [vm_compute; reflexivity|].
  split; [vm_compute; reflexivity|].
  split; [vm_compute; reflexivity|].
  intros H. rewrite H, E0 in E. discriminate E.
Qed.

(** The methods beside the decoder, the command-issuing methods and
    [disconnect] do not touch the status. *)
Lemma status_kept_elsewhere (c : Controller) :
  (forall rx, current_status (fst (read_response rx c)) = current_status c) /\
  (forall io command data,
     current_status (fst (send_command_now io command data c))
     = current_status c) /\
  (forall ok io, current_status (fst (connect ok io c)) = current_status c) /\
  (forall l, current_status (fst (register_callback l c)) = current_status c).
Proof.
  split; [|split; [|split]].
  - intros rx. unfold read_response.
    destruct (negb (serial_is_open c)); [reflexivity|].
    destruct rx as [bs|]; [|reflexivity].
    destruct (0 <? length bs)%nat;
      match goal with
      | |- context [bytes_index ?x ?b] => destruct (bytes_index x b)
      end; try reflexivity;
      repeat match goal with
             | |- context [if ?b then _ else _] => destruct b
             end; reflexivity.
  - intros io command data. unfold send_command_now.
    repeat match goal with
           | |- context [if ?b then _ else _] => destruct b
           | |- context [match build_command ?a ?b with _ => _ end] =>
               destruct (build_command a b)
           end; reflexivity.
  - intros ok io. destruct ok; [|reflexivity].
    unfold connect, start_thread, emit.
    cbv [bind ret modify get]. unfold send_command_now.
    repeat match goal with
           | |- context [if ?b then _ else _] => destruct b
           | |- context [match build_command ?a ?b with _ => _ end] =>
               destruct (build_command a b)
           end; reflexivity.
  - intros l. reflexivity.
Qed.

(** [disconnect] either stops at a join, the status untouched, or resets
    the status to the defaults. *)
Lemma disconnect_resets_or_keeps (me : Tid) (c : Controller) :
  current_status (fst (disconnect me c)) = current_status c \/
  current_status (fst (disconnect me c)) = default_status.
Proof.
  unfold disconnect, bind, modify, get, join, serial_close, emit.
  destruct (cmd_thread (set_running false c)) as [t|];
    [destruct (Nat.eqb t me)|]; cbn [raise ret]; try (left; reflexivity).
  all: destruct (poll_thread (set_running false c)) as [t'|];
    [destruct (Nat.eqb t' me)|]; cbn [raise ret]; try (left; reflexivity).
  all: destruct (serial_is_open (set_running false c)); right; reflexivity.
Qed.

(** A command-issuing method never raises, never calls a listener and
    leaves every status field other than its own as it was; reading a
    frame, connecting and [disconnect] short of its reset leave the status
    as it was. *)
Lemma calls_keep_other_fields (k : Call) (c : Controller) :
  snd (call k c) = Ok tt /\
  trace (fst (call k c)) = trace c /\
  without (written_keys k) (current_status (fst (call k c)))
  = without (written_keys k) (current_status c) /\
  (written_keys k = [] -> current_status (fst (call k c)) = current_status c) /\
  (forall me,
     current_status (fst (disconnect me c)) = current_status c \/
     current_status (fst (disconnect me c)) = default_status) /\
  (forall rx, current_status (fst (read_response rx c)) = current_status c) /\
  (forall ok io, current_status (fst (connect ok io c)) = current_status c).
Proof.
  assert (Hrest :
    (forall me,
       current_status (fst (disconnect me c)) = current_status c \/
       current_status (fst (disconnect me c)) = default_status) /\
    (forall rx, current_status (fst (read_response rx c)) = current_status c) /\
    (forall ok io, current_status (fst (connect ok io c)) = current_status c)).
  { split; [intros me; apply disconnect_resets_or_keeps|].
    destruct (status_kept_elsewhere c) as (Hr & _ & Hc & _). auto. }
  destruct k; cbn [call written_keys];
    try (repeat split; first [reflexivity | apply Hrest]).
  - (* goto_track *)
    unfold goto_track.
    destruct (negb ((1 <=? track_number) && (track_number <=? 999)));
      repeat split; first [reflexivity | apply Hrest].
  - (* set_play_mode *)
    unfold set_play_mode.
    destruct (play_mode_codes !! mode) as [code|].
    + repeat split; try reflexivity; try apply Hrest; [|discriminate].
      apply without_insert.
    + repeat split; first [reflexivity | apply Hrest].
  - (* set_repeat *)
    repeat split; try reflexivity; try apply Hrest; [|discriminate].
    apply without_insert.
  - (* set_resume_mode *)
    repeat split; try reflexivity; try apply Hrest; [|discriminate].
    apply without_insert.
  - (* switch_device *)
    unfold switch_device.
    destruct (device_codes !! str_lower device) as [code|].
    + repeat split; try reflexivity; try apply Hrest; [|discriminate].
      cbn [fst bind send_command status_set modify current_status
           set_current_status set_cmd_queue].
      unfold without. cbn [foldr].
      apply map_eq. intros i.
      rewrite !lookup_delete, !lookup_insert.
      repeat case_decide; reflexivity.
    + repeat split; first [reflexivity | apply Hrest].
  - (* tuner_preset *)
    unfold tuner_preset.
    destruct (negb ((1 <=? preset_number) && (preset_number <=? 20)));
      repeat split; first [reflexivity | apply Hrest].
Qed.

(** [set_play_mode] with one of its three modes assigns the mode as it was
    given. *)
Lemma set_play_mode_writes (mode : string) (c : Controller) :
  mode ∈ ["continuous"; "single"; "random"] ->
  current_status (fst (set_play_mode mode c))
  = <["play_mode" := VStr mode]> (current_status c).
Proof.
  intros Hmode.
  repeat (apply elem_of_cons in Hmode as [->|Hmode]; [reflexivity|]).
  apply elem_of_nil in Hmode. destruct Hmode.
Qed.

(** [switch_device] with a device of the table assigns the lower-case
    device, its display name and the tuner flag, in this order. *)
Lemma switch_device_writes (device name : string) (c : Controller) :
  device_names !! str_lower device = Some name ->
  current_status (fst (switch_device device c))
  = <["is_tuner" := VBool (bool_decide (str_lower device ∈ ["fm"; "am"]))]>
      (<["device_name" := VStr name]>
         (<["device" := VStr (str_lower device)]> (current_status c))).
Proof.
  intros E. unfold switch_device.
  generalize (str_upper device). revert E.
  generalize (str_lower device). intros key E upper.
  unfold device_names in E. apply elem_of_list_to_map_2 in E.
  repeat (apply elem_of_cons in E as [E|E];
          [injection E as -> ->; reflexivity|]).
  apply elem_of_nil in E. destruct E.
Qed.

(** C2 (amended).  The command-issuing methods do write the status:
    [set_repeat] assigns the repeat flag it was given, [set_resume_mode] the
    resume flag, [set_play_mode] with one of its three modes the play mode,
    [switch_device] with a device of its table the lower-case device, its
    display name and the tuner flag (true for fm and am); the status after
    the call is the status before with exactly these assignments.  A
    command-issuing method never raises, never calls a listener, and writes
    no status field other than its own; every other command-issuing method
    leaves the status exactly as it was.  Beside these and the decoder, the
    only write is the reset to the defaults of [disconnect]: reading a frame
    and connecting leave the status as it was. *)
Theorem calls_write_only_their_fields (k : Call) (c : Controller) :
  snd (call k c) = Ok tt /\
  trace (fst (call k c)) = trace c /\
  without (written_keys k) (current_status (fst (call k c)))
  = without (written_keys k) (current_status c) /\
  (written_keys k = [] -> current_status (fst (call k c)) = current_status c) /\
  (forall me,
     current_status (fst (disconnect me c)) = current_status c \/
     current_status (fst (disconnect me c)) = default_status) /\
  (forall rx, current_status (fst (read_response rx c)) = current_status c) /\
  (forall ok io, current_status (fst (connect ok io c)) = current_status c) /\
  match k with
  | CallSetRepeat enabled =>
      current_status (fst (call k c))
      = <["repeat_mode" := VBool enabled]> (current_status c)
  | CallSetResumeMode enabled =>
      current_status (fst (call k c))
      = <["resume_mode" := VBool enabled]> (current_status c)
  | CallSetPlayMode mode =>
      mode ∈ ["continuous"; "single"; "random"] ->
      current_status (fst (call k c))
      = <["play_mode" := VStr mode]> (current_status c)
  | CallSwitchDevice device =>
      forall name, device_names !! str_lower device = Some name ->
      current_status (fst (call k c))
      = <["is_tuner" := VBool (bool_decide (str_lower device ∈ ["fm"; "am"]))]>
          (<["device_name" := VStr name]>
             (<["device" := VStr (str_lower device)]> (current_status c)))
  | _ => True
  end.
Proof.
  destruct (calls_keep_other_fields k c) as (H1 & H2 & H3 & H4 & H5 & H6 & H7).
  repeat (split; [assumption|]).
  destruct k; cbn [call]; try exact I.
  - apply set_play_mode_writes.
  - reflexivity.
  - reflexivity.
  - intros name. apply switch_device_writes.
Qed.

Lemma calls_write_only_their_fields_witness :
  written_keys CallPlay = [] /\
  current_status (fst (call CallPlay linked)) = current_status linked /\
  without ["repeat_mode"]
    (current_status (fst (call (CallSetRepeat true) linked)))
  = without ["repeat_mode"] (current_status linked) /\
  "random" ∈ ["continuous"; "single"; "random"] /\
  current_status (fst (call (CallSetPlayMode "random") linked))
  = <["play_mode" := VStr "random"]> (current_status linked) /\
  device_names !! str_lower "FM" = Some "FM Radio" /\
  current_status (fst (call (CallSwitchDevice "FM") linked))
  = <["is_tuner" := VBool (bool_decide (str_lower "FM" ∈ ["fm"; "am"]))]>
      (<["device_name" := VStr "FM Radio"]>
         (<["device" := VStr (str_lower "FM")]> (current_status linked))).
Proof.
  assert (Hmode : "random" ∈ ["continuous"; "single"; "random"])
    by compute_done.
  assert (Hdev : device_names !! str_lower "FM" = Some "FM Radio")
    by reflexivity.
  split; [reflexivity|]. split; [|split; [|split; [exact Hmode|split;
    [|split; [exact Hdev|]]]]].
  - exact (proj1 (proj2 (proj2 (proj2
             (calls_write_only_their_fields CallPlay linked)))) eq_refl).
  - exact (proj1 (proj2 (proj2
             (calls_write_only_their_fields (CallSetRepeat true) linked)))).
  - exact (proj2 (proj2 (proj2 (proj2 (proj2 (proj2 (proj2
             (calls_write_only_their_fields (CallSetPlayMode "random")
                linked))))))) Hmode).
  - exact (proj2 (proj2 (proj2 (proj2 (proj2 (proj2 (proj2
             (calls_write_only_their_fields (CallSwitchDevice "FM")
                linked))))))) "FM Radio" Hdev).
Defined.

End Calls.

(** ** Construction: proofs *)

(** C9.  The constructor raises [ValueError] for a speed outside
    4800, 9600, 19200, 38400, 57600, as its first step: no controller comes
    into being, so no port is opened and nothing is queued.  For a speed of
    the set it returns a controller with no port object, an empty queue and
    an empty record of effects. *)
Theorem init_checks_speed (p : string) (b : Z) :
  (b ∉ [4800; 9600; 19200; 38400; 57600] -> init p b = Raise ValueError) /\
  (b ∈ [4800; 9600; 19200; 38400; 57600] ->
   exists c, init p b = Ok c /\ baudrate c = b /\ serial c = None /\
             connected c = false /\ cmd_queue c = [] /\ trace c = []).
Proof.
  unfold init, VALID_BAUDRATES. split; intros H.
  - rewrite bool_decide_eq_false_2 by exact H. reflexivity.
  - rewrite bool_decide_eq_true_2 by exact H. eexists.
    repeat split; reflexivity.
Qed.

Lemma init_checks_speed_witness :
  init "/dev/ttyUSB0" 115200 = Raise ValueError /\
  exists c, init "/dev/ttyUSB0" 9600 = Ok c /\ baudrate c = 9600 /\
            serial c = None /\ connected c = false /\ cmd_queue c = [] /\
            trace c = [].
Proof.
  split.
  - apply (proj1 (init_checks_speed "/dev/ttyUSB0" 115200)). compute_done.
  - apply (proj2 (init_checks_speed "/dev/ttyUSB0" 9600)). compute_done.
Defined.

(** ** Polling and health supervision: proofs *)

Section Supervisor.

Ltac fields :=
  cbn [port baudrate serial connected cmd_queue last_cmd_time
       consecutive_failures max_failures_before_disconnect reconnect_interval
       last_reconnect_attempt current_status status_callbacks cmd_thread
       poll_thread running response_buffer trace
       set_serial set_connected set_cmd_queue set_last_cmd_time
       set_consecutive_failures set_last_reconnect_attempt set_current_status
       set_status_callbacks set_cmd_thread set_poll_thread set_running
       set_response_buffer set_trace].

Ltac run := cbv [bind ret send_command modify get negb]; fields.

Lemma read_response_quiet (c : Controller) (tk : Tick) :
  quiet tk = true ->
  bytes_index x0d (response_buffer c) = None ->
  read_response (tick_rx tk) c = (c, Ok None).
Proof.
  unfold quiet, read_response. intros Hq Hcr.
  destruct (negb (serial_is_open c)); [reflexivity|].
  destruct (tick_rx tk) as [[|b bs]|]; try discriminate Hq; [|reflexivity].
  cbn [length Nat.ltb Nat.leb]. rewrite Hcr. reflexivity.
Qed.

(** The polling thread calling [disconnect]: the stop flag is set, the
    command thread is joined, and joining the polling thread itself raises
    before the port is closed or the status reset. *)
Lemma disconnect_self_join (c : Controller) (me ct : Tid) :
  cmd_thread c = Some ct -> ct <> me -> poll_thread c = Some me ->
  disconnect me c = (set_running false c, Raise RuntimeError).
Proof.
  intros Hct Hne Hpt.
  unfold disconnect, bind, modify, get, join.
  cbn [cmd_thread set_running]. rewrite Hct.
  apply Nat.eqb_neq in Hne. rewrite Hne.
  cbn [ret poll_thread set_running]. rewrite Hpt, Nat.eqb_refl. reflexivity.
Qed.

(** [disconnect] called from a thread that is neither of the two: it
    runs to its end, closes the port, resets the status and tells the
    listeners. *)
Lemma disconnect_from_outside (c : Controller) (me ct pt : Tid) :
  cmd_thread c = Some ct -> ct <> me ->
  poll_thread c = Some pt -> pt <> me ->
  serial_is_open c = true ->
  let c' := fst (disconnect me c) in
  snd (disconnect me c) = Ok tt /\
  running c' = false /\ connected c' = false /\
  serial_is_open c' = false /\ consecutive_failures c' = 0 /\
  current_status c' = default_status /\
  trace c'
  = (trace c ++ [EvClose]
     ++ map (fun l => EvCallback l default_status) (status_callbacks c))%list.
Proof.
  intros Hct Hne Hpt Hne' Hopen.
  unfold disconnect, bind, modify, get, join.
  cbn [cmd_thread set_running]. rewrite Hct.
  apply Nat.eqb_neq in Hne. apply Nat.eqb_neq in Hne'. rewrite Hne.
  cbn [ret poll_thread set_running]. rewrite Hpt, Hne'.
  cbn [ret].
  change (serial_is_open (set_running false c)) with (serial_is_open c).
  rewrite Hopen.
  cbn. rewrite <- app_assoc. repeat split; reflexivity.
Qed.

(** A quiet iteration below the threshold: the queries are queued, the
    failure counter goes up by one and nothing else changes. *)
Lemma quiet_iteration (c : Controller) (me : Tid) (poll_count : Z) (tk : Tick) :
  connected c = true ->
  bytes_index x0d (response_buffer c) = None ->
  quiet tk = true ->
  consecutive_failures c + 1 < max_failures_before_disconnect c ->
  exists q,
    poll_iteration me poll_count tk c
    = (set_consecutive_failures (consecutive_failures c + 1)
         (set_cmd_queue q c),
       Ok (poll_count + 1)).
Proof.
  intros Hconn Hcr Hq Hlt.
  unfold poll_iteration, try_except, poll_try.
  unfold bind at 1. unfold get at 1. rewrite Hconn. cbn [negb].
  unfold bind at 1. rewrite (read_response_quiet c tk Hq Hcr).
  apply Z.leb_gt in Hlt.
  destruct (poll_count mod 10 =? 0), (poll_count mod 30 =? 0);
    cbn [bind ret send_command modify get negb consecutive_failures
         set_consecutive_failures set_cmd_queue
         max_failures_before_disconnect];
    rewrite Hlt; eexists; reflexivity.
Qed.

(** The quiet iteration that reaches the threshold: [disconnect] raises in
    the [try] block and again in the handler, so the exception leaves the
    iteration; the controller is left connected, its port and status
    untouched. *)
Lemma quiet_iteration_at_threshold (c : Controller) (me ct : Tid)
    (poll_count : Z) (tk : Tick) :
  connected c = true ->
  bytes_index x0d (response_buffer c) = None ->
  quiet tk = true ->
  max_failures_before_disconnect c <= consecutive_failures c + 1 ->
  cmd_thread c = Some ct -> ct <> me -> poll_thread c = Some me ->
  exists q,
    poll_iteration me poll_count tk c
    = (set_running false
         (set_consecutive_failures (consecutive_failures c + 2)
            (set_cmd_queue q c)),
       Raise RuntimeError).
Proof.
  intros Hconn Hcr Hq Hge Hct Hne Hpt.
  assert (Hge2 : (max_failures_before_disconnect c
                  <=? consecutive_failures c + 1 + 1) = true)
    by (apply Z.leb_le; lia).
  apply Z.leb_le in Hge.
  unfold poll_iteration, try_except, poll_try.
  unfold bind at 1. unfold get at 1. rewrite Hconn. cbn [negb].
  unfold bind at 1. rewrite (read_response_quiet c tk Hq Hcr).
  destruct (poll_count mod 10 =? 0), (poll_count mod 30 =? 0).
  all: run; rewrite Hge.
  all: erewrite disconnect_self_join by (fields; eassumption).
  all: run; rewrite Hge2.
  all: erewrite disconnect_self_join by (fields; eassumption).
  all: replace (consecutive_failures c + 1 + 1)
         with (consecutive_failures c + 2) by lia.
  all: eexists; reflexivity.
Qed.

(** Quiet iterations up to the threshold end the polling thread with the
    exception of the last one, however many iterations would follow. *)
Lemma quiet_run_dies (me ct : Tid) (ticks : list Tick) :
  forall (c : Controller) (poll_count : Z) (more : list Tick),
  ticks <> [] ->
  forallb quiet ticks = true ->
  running c = true ->
  connected c = true ->
  bytes_index x0d (response_buffer c) = None ->
  cmd_thread c = Some ct -> ct <> me -> poll_thread c = Some me ->
  consecutive_failures c + Z.of_nat (length ticks)
  = max_failures_before_disconnect c ->
  exists q,
    poll_loop me poll_count (ticks ++ more) c
    = (set_running false
         (set_consecutive_failures (max_failures_before_disconnect c + 1)
            (set_cmd_queue q c)),
       Raise RuntimeError).
Proof.
  induction ticks as [|tk ticks IH];
    intros c poll_count more Hne Hq Hrun Hconn Hcr Hct Hctme Hpt Hsum;
    [congruence|].
  cbn [forallb] in Hq. apply andb_prop in Hq as [Hq Hqs].
  cbn [app poll_loop]. rewrite Hrun. cbn [negb].
  destruct ticks as [|tk' ticks].
  - cbn [length] in Hsum.
    destruct (quiet_iteration_at_threshold c me ct poll_count tk)
      as [q Eq]; try assumption; [lia|].
    rewrite Eq. exists q.
    replace (max_failures_before_disconnect c + 1)
      with (consecutive_failures c + 2) by lia.
    reflexivity.
  - cbn [length] in Hsum.
    destruct (quiet_iteration c me poll_count tk) as [q Eq];
      try assumption; [lia|].
    rewrite Eq.
    destruct (IH (set_consecutive_failures (consecutive_failures c + 1)
                    (set_cmd_queue q c)) (poll_count + 1) more)
      as [q' Eq']; try assumption; try discriminate.
    { fields. cbn [length]. lia. }
    rewrite Eq'. exists q'. reflexivity.
Qed.

(** Once [running] is false the loop returns at its next test, whatever
    the clock says: the reconnect branch is never reached. *)
Lemma poll_loop_stopped (me : Tid) (poll_count : Z) (ticks : list Tick)
    (c : Controller) :
  running c = false ->
  poll_loop me poll_count ticks c = (c, Ok Returned).
Proof. intros H. destruct ticks; cbn [poll_loop]; rewrite H; reflexivity. Qed.


(** [disconnect] clears [running] whoever calls it and however it ends. *)
Lemma disconnect_stops (me : Tid) (c : Controller) :
  running (fst (disconnect me c)) = false.
Proof.
  unfold disconnect, bind, modify, get, join, serial_close, emit.
  fields.
  destruct (cmd_thread c) as [t|]; [destruct (Nat.eqb t me)|];
    cbn [raise ret]; fields; try reflexivity.
  all: destruct (poll_thread c) as [t'|]; [destruct (Nat.eqb t' me)|];
    cbn [raise ret]; fields; try reflexivity.
  all: destruct (serial_is_open _); reflexivity.
Qed.

(** C5 (the code at the failing input).  A polling thread that is the
    controller's [poll_thread] sees ten quiet iterations in a row, starting
    from a failure count of 0 with the threshold at 10.  The tenth one calls
    [disconnect], which raises when the thread joins itself; the handler
    calls it again and the exception ends the thread.  The controller is
    left marked connected, its port as it was, its status not reset and no
    listener called. *)
Theorem auto_disconnect_never_completes (c : Controller) (me ct : Tid)
    (ticks : list Tick) :
  running c = true ->
  connected c = true ->
  bytes_index x0d (response_buffer c) = None ->
  cmd_thread c = Some ct -> ct <> me -> poll_thread c = Some me ->
  consecutive_failures c = 0 ->
  max_failures_before_disconnect c = 10 ->
  length ticks = 10%nat ->
  forallb quiet ticks = true ->
  let r := poll_status me ticks c in
  snd r = Raise RuntimeError /\
  running (fst r) = false /\
  connected (fst r) = true /\
  serial (fst r) = serial c /\
  current_status (fst r) = current_status c /\
  trace (fst r) = trace c.
Proof.
  intros Hrun Hconn Hcr Hct Hne Hpt Hf Hmax Hlen Hq r.
  destruct (quiet_run_dies me ct ticks c 0 []) as [q Eq]; try assumption.
  - intros ->. discriminate Hlen.
  - rewrite Hf, Hmax, Hlen. reflexivity.
  - subst r. unfold poll_status. rewrite app_nil_r in Eq. rewrite Eq.
    repeat split; try reflexivity. exact Hconn.
Qed.

Lemma auto_disconnect_never_completes_witness :
  let ticks := map quiet_tick [300; 600; 900; 1200; 1500; 1800; 2100; 2400;
                               2700; 3000] in
  let r := poll_status 3%nat ticks linked_playing in
  cmd_thread linked_playing = Some 2%nat /\
  poll_thread linked_playing = Some 3%nat /\
  current_status linked_playing !! "track_number" = Some (VInt 5) /\
  default_status !! "track_number" = Some (VInt 0) /\
  snd r = Raise RuntimeError /\
  running (fst r) = false /\
  connected (fst r) = true /\
  serial (fst r) = serial linked_playing /\
  current_status (fst r) = current_status linked_playing /\
  trace (fst r) = trace linked_playing.
Proof.
  intros ticks r.
  split; [reflexivity|]. split; [reflexivity|].
  split; [vm_compute; reflexivity|]. split; [vm_compute; reflexivity|].
  apply (auto_disconnect_never_completes linked_playing 3%nat 2%nat ticks);
    try reflexivity.
  lia.
Defined.

(** C6 (the code at the failing input).  After the automatic disconnect
    of ten quiet iterations the polling thread has ended with an exception:
    whatever iterations the world would still offer, not one attempt to
    open the port is made and the time of the last attempt stays as it was.
    After a [disconnect] by any caller [running] is false, and the loop that
    holds the reconnect branch returns at its next test. *)
Theorem no_reconnect_after_disconnect (c : Controller) (me ct : Tid)
    (ticks more : list Tick) :
  running c = true ->
  connected c = true ->
  bytes_index x0d (response_buffer c) = None ->
  cmd_thread c = Some ct -> ct <> me -> poll_thread c = Some me ->
  consecutive_failures c = 0 ->
  max_failures_before_disconnect c = 10 ->
  length ticks = 10%nat ->
  forallb quiet ticks = true ->
  (let r := poll_status me (ticks ++ more)%list c in
   snd r = Raise RuntimeError /\
   open_attempts (trace (fst r)) = open_attempts (trace c) /\
   last_reconnect_attempt (fst r) = last_reconnect_attempt c) /\
  (forall (caller : Tid) (poll_count : Z) (later : list Tick),
     let c' := fst (disconnect caller c) in
     poll_loop me poll_count later c' = (c', Ok Returned)).
Proof.
  intros Hrun Hconn Hcr Hct Hne Hpt Hf Hmax Hlen Hq. split.
  - intros r.
    destruct (quiet_run_dies me ct ticks c 0 more) as [q Eq]; try assumption.
    + intros ->. discriminate Hlen.
    + rewrite Hf, Hmax, Hlen. reflexivity.
    + subst r. unfold poll_status. rewrite Eq. repeat split; reflexivity.
  - intros caller poll_count later c'.
    apply poll_loop_stopped. apply disconnect_stops.
Qed.

Lemma no_reconnect_after_disconnect_witness :
  let ticks := map quiet_tick [300; 600; 900; 1200; 1500; 1800; 2100; 2400;
                               2700; 3000] in
  let more := map quiet_tick [8000; 13000; 18000] in
  let r := poll_status 3%nat (ticks ++ more)%list linked_playing in
  snd r = Raise RuntimeError /\
  open_attempts (trace (fst r)) = open_attempts (trace linked_playing) /\
  last_reconnect_attempt (fst r) = last_reconnect_attempt linked_playing.
Proof.
  intros ticks more.
  apply (no_reconnect_after_disconnect linked_playing 3%nat 2%nat ticks more);
    try reflexivity.
  lia.
Defined.

End Supervisor.

(** ** Tactics of the further properties *)

(** Case analysis along the branches of [_handle_response]: the code,
    the length tests, the digits parsed and the table lookups. *)
Ltac crunch :=
  cbv [handle_response decode_response decoder_keys bind lift ret status_set
       modify send_command notify_callbacks];
  repeat (match goal with
          | |- context [String.eqb ?command ?k] =>
              is_var command; destruct (String.eqb command k) eqn:?
          | |- context [Nat.leb ?n (String.length ?d)] =>
              destruct (Nat.leb n (String.length d)) eqn:?
          | |- context [int_at ?d ?i] => destruct (int_at d i) eqn:?
          | |- context [int_hex2 ?s] => destruct (int_hex2 s) eqn:?
          | |- context [device_kind_map !! ?k] =>
              destruct (device_kind_map !! k) as [[? ?]|] eqn:?
          | |- context [negb (String.eqb ?a ?b)] =>
              destruct (negb (String.eqb a b)) eqn:?
          | |- context [if String.eqb ?a ?b then _ else _] =>
              destruct (String.eqb a b) eqn:?
          end; cbv beta iota).

(** Projections of updated controllers. *)
Ltac fields :=
  cbn [fst snd port baudrate serial connected cmd_queue last_cmd_time
       consecutive_failures max_failures_before_disconnect reconnect_interval
       last_reconnect_attempt current_status status_callbacks cmd_thread
       poll_thread running response_buffer trace
       set_serial set_connected set_cmd_queue set_last_cmd_time
       set_consecutive_failures set_last_reconnect_attempt set_current_status
       set_status_callbacks set_cmd_thread set_poll_thread set_running
       set_response_buffer set_trace].

(** ** Frame codec: further properties *)

Section CodecMore.

Lemma bytes_index_after (pre rest : list byte) :
  bytes_index x0d pre = None ->
  bytes_index x0d (pre ++ x0d :: rest) = Some (length pre).
Proof.
  induction pre as [|b pre IH]; cbn [bytes_index app length]; intros H.
  - reflexivity.
  - destruct (Byte.eqb b x0d); [discriminate H|].
    destruct (bytes_index x0d pre); [discriminate H|].
    rewrite IH by reflexivity. reflexivity.
Qed.

(** On an open port, reading with bytes waiting is reading with these
    bytes already at the end of the buffer. *)
Lemma read_response_extend (c : Controller) (data : list byte) :
  serial_is_open c = true ->
  read_response (Rx data) c
  = read_response (Rx [])
      (set_response_buffer (response_buffer c ++ data) c).
Proof.
  destruct c. unfold read_response, serial_is_open.
  cbn [serial response_buffer set_response_buffer]. intros ->.
  destruct data as [|b bs].
  - rewrite app_nil_r. reflexivity.
  - reflexivity.
Qed.

Lemma read_response_frame_rx (c : Controller) (id : ascii)
    (code data : string) (incoming rest : list byte) :
  serial_is_open c = true ->
  well_formed id code data = true ->
  (response_buffer c ++ incoming = frame_bytes id code data ++ rest)%list ->
  read_response (Rx incoming) c
  = (set_response_buffer rest c, Ok (Some (code, data))).
Proof.
  intros Hopen Hwf Hbuf.
  apply well_formed_parts in Hwf as (Hi & Hl & Hc & Hd).
  rewrite read_response_extend by exact Hopen.
  rewrite (read_response_frame _ id code data rest); auto.
Qed.

Lemma read_response_no_cr (c : Controller) (incoming : list byte) :
  serial_is_open c = true ->
  bytes_index x0d (response_buffer c ++ incoming) = None ->
  read_response (Rx incoming) c
  = (set_response_buffer (response_buffer c ++ incoming) c, Ok None).
Proof.
  intros Hopen Hcr. rewrite read_response_extend by exact Hopen.
  unfold read_response.
  change (serial_is_open (set_response_buffer _ c)) with (serial_is_open c).
  rewrite Hopen. cbn [negb length Nat.ltb Nat.leb response_buffer
                      set_response_buffer].
  rewrite Hcr. reflexivity.
Qed.

(** X1.  Input that is not yet a frame is never lost.  On an open port a
    buffer without a CR, also after the waiting bytes are added, gives no
    frame: the waiting bytes are appended and everything stays for the next
    call.  Without an open port the call returns at once: the buffer is as
    it was and the waiting bytes are not taken from the port. *)
Theorem incomplete_frame_kept (c : Controller) (incoming : list byte) :
  (serial_is_open c = true ->
   bytes_index x0d (response_buffer c ++ incoming) = None ->
   read_response (Rx incoming) c
   = (set_response_buffer (response_buffer c ++ incoming) c, Ok None)) /\
  (serial_is_open c = false ->
   forall rx, read_response rx c = (c, Ok None)).
Proof.
  split.
  - apply read_response_no_cr.
  - intros Hclosed rx. unfold read_response. rewrite Hclosed. reflexivity.
Qed.

Lemma incomplete_frame_kept_witness :
  let c := set_response_buffer (str_bytes (String LF "0D")) linked in
  serial_is_open c = true /\
  bytes_index x0d (response_buffer c ++ str_bytes "01") = None /\
  read_response (Rx (str_bytes "01")) c
  = (set_response_buffer (str_bytes (String LF "0D01")) c, Ok None) /\
  read_response (Rx (str_bytes "01")) (new_controller "/dev/ttyUSB0" 9600)
  = (new_controller "/dev/ttyUSB0" 9600, Ok None).
Proof.
  intros c. split; [reflexivity|]. split; [reflexivity|]. split.
  - apply (proj1 (incomplete_frame_kept c (str_bytes "01"))); reflexivity.
  - apply (proj2 (incomplete_frame_kept (new_controller "/dev/ttyUSB0" 9600)
                    [])). reflexivity.
Defined.

(** X2.  On an open port whose read succeeds, whatever stands before the
    first CR of the buffer, the waiting bytes included, is taken out
    together with the CR, and what follows stays; when it is shorter than
    3 bytes or does not begin with LF, it is dropped and the call returns
    nothing.  When reading the port fails, or the port is not open, the
    buffer stays as it was, the candidate in it, and the call returns
    nothing. *)
Theorem candidate_consumed (c : Controller) (incoming pre rest : list byte) :
  bytes_index x0d pre = None ->
  (response_buffer c ++ incoming = pre ++ x0d :: rest)%list ->
  (serial_is_open c = true ->
   response_buffer (fst (read_response (Rx incoming) c)) = rest /\
   ((length pre < 3)%nat \/ byte_at_is pre 0 x0a = false ->
    read_response (Rx incoming) c = (set_response_buffer rest c, Ok None))) /\
  read_response RxFail c = (c, Ok None) /\
  (serial_is_open c = false ->
   read_response (Rx incoming) c = (c, Ok None)).
Proof.
  intros Hcr Hbuf. split; [|split].
  - intros Hopen.
    assert (Htake : take (length pre) (pre ++ x0d :: rest) = pre)
      by apply take_app_length.
    assert (Hdrop : drop (length pre + 1) (pre ++ x0d :: rest) = rest).
    { replace (pre ++ x0d :: rest)%list with ((pre ++ [x0d]) ++ rest)%list
        by (rewrite <- app_assoc; reflexivity).
      replace (length pre + 1)%nat with (length (pre ++ [x0d])%list)
        by (rewrite length_app; reflexivity).
      apply drop_app_length. }
    rewrite read_response_extend by exact Hopen.
    unfold read_response.
    change (serial_is_open (set_response_buffer _ c)) with (serial_is_open c).
    rewrite Hopen. cbn [negb].
    change (0 <? length (@nil byte))%nat with false. cbv iota.
    change (response_buffer (set_response_buffer ?b c)) with b.
    rewrite Hbuf, (bytes_index_after pre rest Hcr), Htake, Hdrop.
    split.
    + repeat match goal with
             | |- context [if ?b then _ else _] => destruct b
             end; reflexivity.
    + intros [Hshort | Hlf].
      * apply Nat.leb_gt in Hshort. rewrite Hshort. reflexivity.
      * rewrite Hlf, andb_false_r. reflexivity.
  - unfold read_response. destruct (negb (serial_is_open c)); reflexivity.
  - intros Hclosed. unfold read_response. rewrite Hclosed. reflexivity.
Qed.

Lemma candidate_consumed_witness :
  let c := set_response_buffer (str_bytes "xD0") linked in
  let incoming := (str_bytes "11" ++ x0d :: frame_bytes "0" "D0" "11")%list in
  serial_is_open c = true /\
  bytes_index x0d (str_bytes "xD011") = None /\
  byte_at_is (str_bytes "xD011") 0 x0a = false /\
  read_response (Rx incoming) c
  = (set_response_buffer (frame_bytes "0" "D0" "11") c, Ok None) /\
  read_response RxFail c = (c, Ok None).
Proof.
  intros c incoming.
  pose proof (candidate_consumed c incoming (str_bytes "xD011")
                (frame_bytes "0" "D0" "11") eq_refl eq_refl) as H.
  split; [reflexivity|]. split; [reflexivity|]. split; [reflexivity|].
  split.
  - exact (proj2 (proj1 H eq_refl) (or_intror eq_refl)).
  - exact (proj1 (proj2 H)).
Defined.

Lemma bytes_index_none_app (a b : list byte) :
  bytes_index x0d (a ++ b) = None -> bytes_index x0d a = None.
Proof.
  induction a as [|x a IH]; cbn [app bytes_index]; intros H; [reflexivity|].
  destruct (Byte.eqb x x0d); [discriminate H|].
  destruct (bytes_index x0d (a ++ b)) eqn:E; [discriminate H|].
  rewrite IH by reflexivity. reflexivity.
Qed.

Lemma bytes_index_none_text (s : string) :
  frame_text s = true -> bytes_index x0d (str_bytes s) = None.
Proof.
  induction s as [|a s IH]; simpl; intros H; [reflexivity|].
  apply andb_prop in H as [Ha Hs].
  rewrite (byte_of_frame_char_not_cr a Ha), (IH Hs). reflexivity.
Qed.

(** The only CR of a frame is its last byte. *)
Lemma frame_bytes_cr_last (id : ascii) (code data : string) :
  well_formed id code data = true ->
  exists pre, frame_bytes id code data = (pre ++ [x0d])%list /\
              bytes_index x0d pre = None.
Proof.
  intros Hwf. apply well_formed_parts in Hwf as (Hi & Hl & Hc & Hd).
  exists (x0a :: str_bytes (String id (code ++ data))). split.
  - unfold frame_bytes. cbn [str_bytes].
    rewrite str_bytes_app, <- !app_comm_cons, <- !app_assoc. reflexivity.
  - change (bytes_index x0d (x0a :: str_bytes (String id (code ++ data))))
      with (S <$> bytes_index x0d (str_bytes (String id (code ++ data)))).
    rewrite bytes_index_none_text; [reflexivity|].
    cbn [frame_text]. rewrite Hi, frame_text_app, Hc, Hd. reflexivity.
Qed.

(** X3.  A frame that arrives in two pieces is put together again: the
    read that sees only the first piece returns nothing and keeps it, the
    read that sees the rest returns the frame and leaves the buffer empty. *)
Theorem split_frame_reassembled (c : Controller) (id : ascii)
    (code data : string) (part1 part2 : list byte) :
  serial_is_open c = true ->
  well_formed id code data = true ->
  response_buffer c = [] ->
  frame_bytes id code data = (part1 ++ part2)%list ->
  part2 <> [] ->
  let first := read_response (Rx part1) c in
  let second := read_response (Rx part2) (fst first) in
  snd first = Ok None /\
  response_buffer (fst first) = part1 /\
  snd second = Ok (Some (code, data)) /\
  response_buffer (fst second) = [].
Proof.
  intros Hopen Hwf Hbuf Hsplit Hne first second.
  destruct (frame_bytes_cr_last id code data Hwf) as (pre & Hpre & Hcr).
  destruct (exists_last Hne) as (k & z & Hk).
  assert (Hpart : bytes_index x0d part1 = None).
  { rewrite Hpre, Hk, app_assoc in Hsplit.
    apply app_inj_tail in Hsplit as [Hp _].
    rewrite Hp in Hcr. exact (bytes_index_none_app _ _ Hcr). }
  assert (E1 : first = (set_response_buffer part1 c, Ok None)).
  { subst first. rewrite read_response_no_cr; rewrite ?Hbuf; auto. }
  assert (E2 : second = (set_response_buffer [] c, Ok (Some (code, data)))).
  { subst second. rewrite E1. cbn [fst].
    rewrite (read_response_frame_rx _ id code data part2 []); auto.
    cbn [response_buffer set_response_buffer].
    rewrite Hsplit, app_nil_r. reflexivity. }
  rewrite E2, E1. repeat split.
Qed.

Lemma split_frame_reassembled_witness :
  let part1 := (x0a :: str_bytes "0D5")%list in
  let part2 := (str_bytes "0300" ++ [x0d])%list in
  let first := read_response (Rx part1) linked in
  let second := read_response (Rx part2) (fst first) in
  frame_bytes "0" "D5" "0300" = (part1 ++ part2)%list /\
  snd first = Ok None /\
  response_buffer (fst first) = part1 /\
  snd second = Ok (Some ("D5", "0300")) /\
  response_buffer (fst second) = [].
Proof.
  intros part1 part2 first second. split; [reflexivity|].
  apply (split_frame_reassembled linked "0" "D5" "0300" part1 part2);
    try reflexivity.
  discriminate.
Defined.

Lemma encode_non_ascii (s : string) :
  ascii_text s = false -> encode_ascii s = Raise UnicodeEncodeError.
Proof.
  induction s as [|a s IH]; simpl; intros H; [discriminate H|].
  destruct (is_ascii a); [|reflexivity].
  rewrite (IH H). reflexivity.
Qed.

(** X4.  [_build_command] succeeds exactly on ASCII input: for a command
    and a payload without characters above 127 it returns LF, the machine
    id 0, the command, the payload and CR, 3 bytes more than the two
    strings together; if either holds a character above 127 it raises
    [UnicodeEncodeError]. *)
Theorem build_command_ascii_only (command data : string) :
  (ascii_text command && ascii_text data = true ->
   build_command command data
   = Ok (x0a :: byte_of_ascii "0"
           :: str_bytes command ++ str_bytes data ++ [x0d])%list /\
   forall bs, build_command command data = Ok bs ->
     length bs = (String.length command + String.length data + 3)%nat) /\
  (ascii_text command && ascii_text data = false ->
   build_command command data = Raise UnicodeEncodeError).
Proof.
  split; intros H.
  - apply andb_prop in H as [Hc Hd].
    pose proof (build_command_frame command data Hc Hd) as E.
    split; [exact E|].
    intros bs Hbs. rewrite E in Hbs. injection Hbs as <-.
    unfold frame_bytes. cbn [length].
    rewrite !length_app, !length_str_bytes. cbn [length]. lia.
  - unfold build_command.
    destruct (startswith "7F" command || startswith "FF" command).
    all: apply encode_non_ascii; unfold MACHINE_ID;
      rewrite append_cons, append_nil; cbn [ascii_text];
      rewrite !ascii_text_app;
      apply andb_false_iff in H as [-> | ->];
      rewrite ?andb_false_r, ?andb_false_l; reflexivity.
Qed.

Lemma build_command_ascii_only_witness :
  build_command CMD_TRACK_SKIP "01"
  = Ok (x0a :: byte_of_ascii "0"
          :: str_bytes CMD_TRACK_SKIP ++ str_bytes "01" ++ [x0d])%list /\
  build_command CMD_TRACK_SKIP (String "233" EmptyString)
  = Raise UnicodeEncodeError.
Proof.
  split.
  - apply (proj1 (build_command_ascii_only CMD_TRACK_SKIP "01")).
    reflexivity.
  - apply (proj2 (build_command_ascii_only CMD_TRACK_SKIP
                    (String "233" EmptyString))).
    reflexivity.
Defined.

End CodecMore.

(** ** Response decoder: further properties *)

Section DecoderMore.

Lemma without_insert_in (K : list string) (key : string) (v : Value)
    (st : gmap string Value) :
  key ∈ K -> without K (<[key := v]> st) = without K st.
Proof.
  unfold without. induction K as [|k K IH]; intros Hin.
  - inversion Hin.
  - cbn [foldr]. destruct (decide (k = key)) as [->|Hne].
    + destruct (decide (key ∈ K)) as [HinK|HninK].
      * rewrite IH by exact HinK. reflexivity.
      * clear IH Hin. apply map_eq. intros i.
        destruct (decide (i = key)) as [->|Hi].
        -- rewrite !lookup_delete_eq. reflexivity.
        -- rewrite !lookup_delete_ne by congruence.
           revert i Hi. induction K as [|k' K IHK]; intros i Hi; cbn [foldr].
           ++ rewrite lookup_insert_ne by congruence. reflexivity.
           ++ apply not_elem_of_cons in HninK as [Hk' HK].
              destruct (decide (i = k')) as [->|Hik].
              ** rewrite !lookup_delete_eq. reflexivity.
              ** rewrite !lookup_delete_ne by congruence. apply IHK; auto.
    + apply elem_of_cons in Hin as [Heq|HinK]; [congruence|].
      rewrite IH by exact HinK. reflexivity.
Qed.

(** X5.  Whatever the payload and however the call ends, the branch of a
    response code writes no status field but its own (the track number for
    D5, device, device name and tuner flag for FF, none at all for the
    codes that only query or log); in particular no response ever writes
    [time_remaining]. *)
Theorem decoder_writes_only_own_fields (c : Controller)
    (command data : string) :
  without (decoder_keys command)
    (current_status (fst (handle_response command data c)))
  = without (decoder_keys command) (current_status c) /\
  current_status (fst (handle_response command data c)) !! "time_remaining"
  = current_status c !! "time_remaining".
Proof.
  split.
  - crunch; fields; rewrite ?without_insert_in by compute_done; reflexivity.
  - crunch; fields; rewrite ?lookup_insert_ne by discriminate; reflexivity.
Qed.

(** X6.  Listeners are called only by a decode that returns, and then with
    the status as the decode left it: a call that raises calls no listener;
    a call that returns either leaves status and listeners alone or calls
    every registered listener once, in the order of registration, with the
    status it has just written. *)
Theorem listeners_see_final_status (c : Controller) (command data : string) :
  let r := handle_response command data c in
  match snd r with
  | Raise _ => trace (fst r) = trace c
  | Ok _ =>
      (current_status (fst r) = current_status c /\ trace (fst r) = trace c)
      \/ trace (fst r)
         = (trace c ++ map (fun l => EvCallback l (current_status (fst r)))
                         (status_callbacks c))%list
  end.
Proof.
  intros r. subst r. crunch; fields;
    first [reflexivity | left; split; reflexivity | right; reflexivity].
Qed.

(** X7.  A response code without a branch, such as the information return
    8F or the power-on status F4, changes nothing at all: no field, no
    listener call, no query, no exception. *)
Theorem unknown_code_ignored (c : Controller) (command data : string) :
  command ∉ response_codes ->
  handle_response command data c = (c, Ok tt).
Proof.
  intros H. unfold handle_response, decode_response, bind.
  repeat match goal with
         | |- context [String.eqb command ?k] =>
             let E := fresh "E" in
             destruct (String.eqb command k) eqn:E;
             [apply String.eqb_eq in E; subst command; exfalso; apply H;
              compute_done|]
         end.
  reflexivity.
Qed.

Lemma unknown_code_ignored_witness :
  ("8F" ∉ response_codes) /\ ("F4" ∉ response_codes) /\
  handle_response "8F" "0123" linked = (linked, Ok tt) /\
  handle_response "F4" "" linked = (linked, Ok tt).
Proof.
  split; [compute_done|]. split; [compute_done|]. split.
  - apply unknown_code_ignored. compute_done.
  - apply unknown_code_ignored. compute_done.
Defined.

Lemma int_at_raises (data : string) (i : nat) (e : Exn) :
  int_at data i = Raise e ->
  (i < String.length data)%nat ->
  e = ValueError.
Proof.
  unfold int_at, str_at, rbind, int_char.
  revert i. induction data as [|a data IH]; intros i H Hlt.
  - cbn [String.length] in Hlt. lia.
  - destruct i as [|i]; cbn [String.get] in H.
    + destruct (digit_value a); congruence.
    + apply (IH i H). cbn [String.length] in Hlt. lia.
Qed.

Lemma int_hex2_raises (s : string) (e : Exn) :
  int_hex2 s = Raise e -> e = ValueError.
Proof.
  unfold int_hex2.
  destruct s as [|a [|b [|? ?]]]; try congruence.
  destruct (hex_value a), (hex_value b), (is_int_space a), (is_int_space b),
    (Ascii.eqb a "+"), (Ascii.eqb a "-"); congruence.
Qed.

(** X8.  [_handle_response] raises nothing but [ValueError], and only in
    the six branches that parse digits (D5, D7, D8, DD, F8, F9); for every
    other code it returns normally whatever the payload. *)
Theorem decoder_raises_only_value_error (c : Controller)
    (command data : string) (e : Exn) :
  snd (handle_response command data c) = Raise e ->
  e = ValueError /\
  command ∈ [ RET_TRACK_NO; RET_CURRENT_TRACK_INFO; RET_CURRENT_TRACK_TIME;
              RET_TOTAL_TRACK_TIME; RET_ERROR_SENSE; RET_CAUTION_SENSE ].
Proof.
  crunch; fields; try discriminate.
  all: intros [= <-].
  all: split;
    [ first [ eapply int_hex2_raises; eassumption
            | eapply int_at_raises; [eassumption|];
              repeat match goal with
                     | H : Nat.leb _ _ = true |- _ => apply Nat.leb_le in H
                     end; lia ]
    | repeat match goal with
             | H : String.eqb _ _ = true |- _ =>
                 apply String.eqb_eq in H; subst
             end; compute_done ].
Qed.

Lemma decoder_raises_only_value_error_witness :
  snd (handle_response RET_TRACK_NO "12a0" linked) = Raise ValueError /\
  RET_TRACK_NO ∈ [ RET_TRACK_NO; RET_CURRENT_TRACK_INFO;
                   RET_CURRENT_TRACK_TIME; RET_TOTAL_TRACK_TIME;
                   RET_ERROR_SENSE; RET_CAUTION_SENSE ].
Proof.
  split; [reflexivity|].
  apply (decoder_raises_only_value_error linked RET_TRACK_NO "12a0"
           ValueError).
  reflexivity.
Defined.

(** X9.  A decode that raises has changed nothing, with one exception:
    the total-track-time branch may already have written the total track
    count when a digit of the total time fails to parse. *)
Theorem failed_decode_leaves_controller (c : Controller)
    (command data : string) (e : Exn) :
  snd (handle_response command data c) = Raise e ->
  fst (handle_response command data c) = c \/
  (command = RET_TOTAL_TRACK_TIME /\
   exists n, fst (handle_response command data c)
             = set_current_status
                 (<["total_tracks" := VInt n]> (current_status c)) c).
Proof.
  crunch; fields; try discriminate; intros _;
    first [ left; reflexivity
          | right; split;
            [ repeat match goal with
                     | H : String.eqb _ _ = true |- _ =>
                         apply String.eqb_eq in H; subst
                     end; reflexivity
            | eexists; reflexivity ] ].
Qed.

Lemma failed_decode_leaves_controller_witness :
  snd (handle_response RET_CURRENT_TRACK_TIME "0012x43000" linked)
  = Raise ValueError /\
  fst (handle_response RET_CURRENT_TRACK_TIME "0012x43000" linked) = linked.
Proof.
  split; [reflexivity|].
  destruct (failed_decode_leaves_controller linked RET_CURRENT_TRACK_TIME
              "0012x43000" ValueError eq_refl) as [E | [E _]].
  - exact E.
  - discriminate E.
Defined.

(** X10.  The total-track-time branch is not all-or-nothing: when the
    four digits of the track count parse and the first character of the
    total time is not a digit, the call raises [ValueError] after the track
    count has been written, and no listener is told. *)
Theorem total_time_partial_update (c : Controller)
    (tens ones thousands hundreds : Z) (x : ascii) (rest : string) :
  0 <= tens <= 9 -> 0 <= ones <= 9 ->
  0 <= thousands <= 9 -> 0 <= hundreds <= 9 ->
  digit_value x = None ->
  (7 <= String.length rest)%nat ->
  handle_response RET_TOTAL_TRACK_TIME
    (String (digit_char tens) (String (digit_char ones)
       (String (digit_char thousands) (String (digit_char hundreds)
          (String x rest))))) c
  = (set_current_status
       (<["total_tracks" :=
            VInt (thousands * 1000 + hundreds * 100 + tens * 10 + ones)]>
          (current_status c)) c,
     Raise ValueError).
Proof.
  intros Ht Ho Hth Hh Hx Hrest.
  do 7 (destruct rest as [|? rest]; [cbn [String.length] in Hrest; lia|]).
  clear Hrest.
  remember (String (digit_char tens) _) as data eqn:Hdata.
  assert (Hlen : (12 <=? String.length data)%nat = true)
    by (subst data; reflexivity).
  assert (H0 : int_at data 0 = Ok tens)
    by (subst data; apply (int_char_digit tens Ht)).
  assert (H1 : int_at data 1 = Ok ones)
    by (subst data; apply (int_char_digit ones Ho)).
  assert (H2 : int_at data 2 = Ok thousands)
    by (subst data; apply (int_char_digit thousands Hth)).
  assert (H3 : int_at data 3 = Ok hundreds)
    by (subst data; apply (int_char_digit hundreds Hh)).
  assert (H4 : int_at data 4 = Raise ValueError).
  { subst data. unfold int_at, str_at. cbn [String.get rbind].
    unfold int_char. rewrite Hx. reflexivity. }
  assert (Hs : negb (String.eqb (str_slice 4 10 data) "000000") = true).
  { subst data. unfold str_slice. cbn [Nat.sub str_drop str_take].
    assert (Hx0 : Ascii.eqb x "0" = false).
    { apply Ascii.eqb_neq. intros ->. discriminate Hx. }
    unfold String.eqb. rewrite Hx0. reflexivity. }
  clear Hdata.
  unfold handle_response, decode_response.
  rewrite Hlen, Hs, H0, H1, H2, H3, H4.
  reflexivity.
Qed.

Lemma total_time_partial_update_witness :
  handle_response RET_TOTAL_TRACK_TIME "0102x0000000" linked
  = (set_current_status
       (<["total_tracks" := VInt 201]> (current_status linked)) linked,
     Raise ValueError).
Proof.
  apply (total_time_partial_update linked 0 1 0 2 "x" "0000000");
    try lia; reflexivity.
Defined.

Lemma hex_value_range (a : ascii) (v : Z) :
  hex_value a = Some v -> 0 <= v <= 15.
Proof.
  unfold hex_value.
  repeat match goal with
         | |- context [if ?b then _ else _] => destruct b eqn:?
         end; intros [= <-];
    repeat match goal with
           | H : (_ && _)%bool = true |- _ => apply andb_prop in H as [? ?]
           | H : N.leb _ _ = true |- _ => apply N.leb_le in H
           end; lia.
Qed.

Lemma flags_agree_byte (bits : list (Z * string)) (used : Z) :
  (length bits <= 8)%nat ->
  forallb (flags_agree bits used) (seqZ 0 256) = true ->
  forall raw, 0 <= raw <= 255 ->
    (0 <? length (flag_names raw bits))%nat = negb (Z.land raw used =? 0) /\
    forall (i : nat) name, map snd bits !! i = Some name ->
      (name ∈ flag_names raw bits <-> Z.testbit raw (Z.of_nat i) = true).
Proof.
  intros Hbound Hall raw Hraw.
  rewrite forallb_forall in Hall.
  assert (Hin : In raw (seqZ 0 256))
    by (apply list_elem_of_In, elem_of_seqZ; lia).
  specialize (Hall raw Hin). unfold flags_agree in Hall.
  apply andb_prop in Hall as [Hlen Hbits].
  split; [apply Bool.eqb_prop; exact Hlen|].
  intros i name Hi.
  rewrite forallb_forall in Hbits.
  assert (Hi8 : In i (seq 0 8)).
  { apply in_seq. apply lookup_lt_Some in Hi.
    rewrite length_map in Hi. lia. }
  specialize (Hbits i Hi8). rewrite Hi in Hbits.
  apply Bool.eqb_prop in Hbits. rewrite <- Hbits.
  symmetry. apply bool_decide_eq_true.
Qed.

Lemma int_hex2_digits (a b : ascii) (rest : string) (hi lo : Z) :
  hex_value a = Some hi -> hex_value b = Some lo ->
  int_hex2 (str_take 2 (String a (String b rest))) = Ok (16 * hi + lo).
Proof.
  intros Ha Hb. cbn [str_take]. unfold int_hex2.
  destruct rest; cbn [str_take]; rewrite Ha, Hb; reflexivity.
Qed.

(** X11.  The error-sense decode of a payload that begins with two
    hexadecimal digits stores the byte they spell, the names of its set
    bits and a flag that is true exactly when the byte is not 0; the name
    at position [i] of the table (focus, tracking, spindle, sled, tray,
    no disc, cannot play, other) is listed exactly when bit [i] is set. *)
Theorem error_sense_flags (c : Controller) (a b : ascii) (rest : string)
    (hi lo : Z) :
  hex_value a = Some hi -> hex_value b = Some lo ->
  let raw := 16 * hi + lo in
  let errors := flag_names raw error_bits in
  handle_response RET_ERROR_SENSE (String a (String b rest)) c
  = (notified
       (<["error_status" :=
            VDict [ ("raw", VInt raw); ("errors", VList (map VStr errors));
                    ("has_error", VBool (negb (raw =? 0))) ] ]>
          (current_status c)) c,
     Ok tt) /\
  forall (i : nat) name, map snd error_bits !! i = Some name ->
    (name ∈ errors <-> Z.testbit raw (Z.of_nat i) = true).
Proof.
  intros Ha Hb raw errors.
  pose proof (hex_value_range a hi Ha). pose proof (hex_value_range b lo Hb).
  assert (Hraw : 0 <= raw <= 255) by (subst raw; lia).
  assert (Hall : forallb (flags_agree error_bits 255) (seqZ 0 256) = true)
    by (vm_compute; reflexivity).
  destruct (flags_agree_byte error_bits 255 ltac:(cbn; lia) Hall raw Hraw)
    as [Hlen Hbits].
  split; [|exact Hbits].
  assert (Hff : Z.land raw 255 = raw).
  { change 255 with (Z.ones 8). rewrite Z.land_ones by lia.
    apply Z.mod_small. subst raw. lia. }
  rewrite Hff in Hlen.
  unfold handle_response, decode_response.
  rewrite (int_hex2_digits a b rest hi lo Ha Hb).
  change (2 <=? String.length (String a (String b rest)))%nat with true.
  fold raw. fold errors.
  cbv [RET_ERROR_SENSE RET_MECHA_STATUS RET_TRACK_NO RET_CURRENT_TRACK_TIME
       RET_MEDIA_STATUS RET_CURRENT_TRACK_INFO RET_PLAY_MODE
       RET_TOTAL_TRACK_TIME RET_VENDOR RET_RESUME_PLAY RET_REPEAT
       RET_INCR_PLAY RET_REMOTE_LOCAL String.eqb Ascii.eqb Bool.eqb
       bind lift].
  rewrite Hlen. reflexivity.
Qed.

Lemma error_sense_flags_witness :
  handle_response RET_ERROR_SENSE "05" linked
  = (notified
       (<["error_status" :=
            VDict [ ("raw", VInt 5);
                    ("errors",
                     VList [VStr "focus_error"; VStr "spindle_error"]);
                    ("has_error", VBool true) ] ]>
          (current_status linked)) linked,
     Ok tt).
Proof.
  exact (proj1 (error_sense_flags linked "0" "5" EmptyString 0 5
                  eq_refl eq_refl)).
Defined.

(** X12.  The caution-sense decode stores the byte of the two hexadecimal
    digits and the names of its set bits among the five lowest (unsupported
    disc, dirty disc, no audio, temperature high, copyright protected); its
    flag is true exactly when one of these five bits is set, so a byte such
    as 20 hexadecimal gives no caution. *)
Theorem caution_sense_flags (c : Controller) (a b : ascii) (rest : string)
    (hi lo : Z) :
  hex_value a = Some hi -> hex_value b = Some lo ->
  let raw := 16 * hi + lo in
  let cautions := flag_names raw caution_bits in
  handle_response RET_CAUTION_SENSE (String a (String b rest)) c
  = (notified
       (<["caution_status" :=
            VDict [ ("raw", VInt raw);
                    ("cautions", VList (map VStr cautions));
                    ("has_caution", VBool (negb (Z.land raw 31 =? 0))) ] ]>
          (current_status c)) c,
     Ok tt) /\
  forall (i : nat) name, map snd caution_bits !! i = Some name ->
    (name ∈ cautions <-> Z.testbit raw (Z.of_nat i) = true).
Proof.
  intros Ha Hb raw cautions.
  pose proof (hex_value_range a hi Ha). pose proof (hex_value_range b lo Hb).
  assert (Hraw : 0 <= raw <= 255) by (subst raw; lia).
  assert (Hall : forallb (flags_agree caution_bits 31) (seqZ 0 256) = true)
    by (vm_compute; reflexivity).
  destruct (flags_agree_byte caution_bits 31 ltac:(cbn; lia) Hall raw Hraw)
    as [Hlen Hbits].
  split; [|exact Hbits].
  unfold handle_response, decode_response.
  rewrite (int_hex2_digits a b rest hi lo Ha Hb).
  change (2 <=? String.length (String a (String b rest)))%nat with true.
  fold raw. fold cautions.
  cbv [RET_CAUTION_SENSE RET_ERROR_SENSE RET_MECHA_STATUS RET_TRACK_NO
       RET_CURRENT_TRACK_TIME RET_MEDIA_STATUS RET_CURRENT_TRACK_INFO
       RET_PLAY_MODE RET_TOTAL_TRACK_TIME RET_VENDOR RET_RESUME_PLAY
       RET_REPEAT RET_INCR_PLAY RET_REMOTE_LOCAL String.eqb Ascii.eqb
       Bool.eqb bind lift].
  rewrite Hlen. reflexivity.
Qed.

Lemma caution_sense_flags_witness :
  handle_response RET_CAUTION_SENSE "20" linked
  = (notified
       (<["caution_status" :=
            VDict [ ("raw", VInt 32); ("cautions", VList []);
                    ("has_caution", VBool false) ] ]>
          (current_status linked)) linked,
     Ok tt).
Proof.
  exact (proj1 (caution_sense_flags linked "2" "0" EmptyString 2 0
                  eq_refl eq_refl)).
Defined.

Lemma keep_dom (D : gset string) (st : gmap string Value) (key : string)
    (v : Value) :
  dom st = D -> key ∈ D -> dom (<[key := v]> st) = D.
Proof.
  intros Hd Hk. rewrite dom_insert_lookup_L; [exact Hd|].
  apply elem_of_dom. rewrite Hd. exact Hk.
Qed.

(** X13.  The status never gains or loses a field: a status with the
    nineteen fields of the defaults still has exactly these after any
    response is handled, however the call ends, and after any
    command-issuing method. *)
Theorem status_keeps_its_fields (c : Controller) :
  dom (current_status c) = dom default_status ->
  (forall command data,
     dom (current_status (fst (handle_response command data c)))
     = dom default_status) /\
  (forall k, dom (current_status (fst (call k c))) = dom default_status).
Proof.
  intros H. split.
  - intros command data. crunch; fields;
      repeat (apply keep_dom; [|compute_done]); exact H.
  - intros k. destruct k; cbn [call]; try exact H.
    + unfold goto_track.
      destruct (negb ((1 <=? track_number) && (track_number <=? 999)));
        exact H.
    + unfold set_play_mode.
      destruct (play_mode_codes !! mode); [|exact H].
      cbv [bind send_command status_set modify]. fields.
      apply keep_dom; [exact H|compute_done].
    + cbv [set_repeat bind send_command status_set modify]. fields.
      apply keep_dom; [exact H|compute_done].
    + cbv [set_resume_mode bind send_command status_set modify]. fields.
      apply keep_dom; [exact H|compute_done].
    + unfold switch_device.
      destruct (device_codes !! str_lower device); [|exact H].
      cbv [bind send_command status_set modify]. fields.
      repeat (apply keep_dom; [|compute_done]); exact H.
    + unfold tuner_preset.
      destruct (negb ((1 <=? preset_number) && (preset_number <=? 20)));
        exact H.
Qed.

Lemma status_keeps_its_fields_witness :
  dom (current_status linked) = dom default_status /\
  dom (current_status (fst (handle_response RET_MEDIA_STATUS "0110" linked)))
  = dom default_status /\
  dom (current_status (fst (call (CallSwitchDevice "usb") linked)))
  = dom default_status.
Proof.
  split; [reflexivity|]. split.
  - apply (proj1 (status_keeps_its_fields linked eq_refl)).
  - apply (proj2 (status_keeps_its_fields linked eq_refl)).
Defined.

(** X14.  Handling the same response twice gives the status that handling
    it once gives: what a branch writes depends on the payload only, not on
    the status before. *)
Theorem decode_idempotent (c : Controller) (command data : string) :
  current_status
    (fst (handle_response command data
            (fst (handle_response command data c))))
  = current_status (fst (handle_response command data c)).
Proof.
  crunch; fields; try reflexivity.
  all: apply map_eq; intros i; rewrite !lookup_insert;
    repeat case_decide; reflexivity.
Qed.

End DecoderMore.

(** ** Command-issuing operations: further properties *)

Section CallsMore.

Ltac each_digit d :=
  let n := fresh "n" in
  let E := fresh "E" in
  assert (E : d = Z.of_nat (Z.to_nat d)) by lia;
  assert (Z.to_nat d < 10)%nat by lia;
  generalize dependent (Z.to_nat d); intros n ? ?; subst d;
  do 10 (destruct n as [|n]; [reflexivity|]); lia.

Lemma str_of_int_digit (d : Z) :
  0 <= d <= 9 -> str_of_int d = String (digit_char d) EmptyString.
Proof. intros H. each_digit d. Qed.

Lemma digit_char_ascii (d : Z) : 0 <= d <= 9 -> is_ascii (digit_char d) = true.
Proof. intros H. each_digit d. Qed.

(** The payload of a direct track search for the digits of a number. *)
Lemma wire_digits (tens ones thousands hundreds : Z) :
  0 <= tens <= 9 -> 0 <= ones <= 9 ->
  0 <= thousands <= 9 -> 0 <= hundreds <= 9 ->
  str_of_int tens ++ str_of_int ones ++ str_of_int thousands
  ++ str_of_int hundreds
  = String (digit_char tens) (String (digit_char ones)
      (String (digit_char thousands)
         (String (digit_char hundreds) EmptyString))).
Proof.
  intros Ht Ho Hth Hh.
  rewrite !str_of_int_digit by assumption.
  rewrite !append_cons, !append_nil. reflexivity.
Qed.

(** X15.  [goto_track] and the track-number decode agree on the wire
    order: for a track from 1 to 999 [goto_track] queues one direct track
    search whose 4-character payload, read back by the decoder as a track
    number return, gives the same track. *)
Theorem goto_track_round_trip (c c' : Controller) (track_number : Z) :
  1 <= track_number <= 999 ->
  exists data,
    goto_track track_number c
    = (set_cmd_queue (cmd_queue c ++ [(CMD_DIRECT_TRACK_SEARCH, data)]) c,
       Ok tt) /\
    String.length data = 4%nat /\
    handle_response RET_TRACK_NO data c'
    = (notified (<["track_number" := VInt track_number]> (current_status c'))
         c',
       Ok tt).
Proof.
  intros Hn.
  assert (Ht : 0 <= (track_number / 10) mod 10 <= 9)
    by (pose proof (Z.mod_pos_bound (track_number / 10) 10); lia).
  assert (Ho : 0 <= track_number mod 10 <= 9)
    by (pose proof (Z.mod_pos_bound track_number 10); lia).
  assert (Hth : 0 <= (track_number / 1000) mod 10 <= 9)
    by (pose proof (Z.mod_pos_bound (track_number / 1000) 10); lia).
  assert (Hh : 0 <= (track_number / 100) mod 10 <= 9)
    by (pose proof (Z.mod_pos_bound (track_number / 100) 10); lia).
  eexists. split; [|split].
  - unfold goto_track.
    replace ((1 <=? track_number) && (track_number <=? 999)) with true
      by (symmetry; apply andb_true_intro; split; apply Z.leb_le; lia).
    cbn [negb]. rewrite (wire_digits _ _ _ _ Ht Ho Hth Hh). reflexivity.
  - reflexivity.
  - unfold handle_response, decode_response.
    cbv [RET_MECHA_STATUS RET_TRACK_NO String.eqb Ascii.eqb Bool.eqb
         String.length Nat.leb bind lift int_at str_at rbind String.get].
    rewrite !int_char_digit by assumption.
    replace ((track_number / 1000) mod 10 * 1000
             + (track_number / 100) mod 10 * 100
             + (track_number / 10) mod 10 * 10 + track_number mod 10)
      with track_number
      by (clear -Hn; Z.div_mod_to_equations; lia).
    reflexivity.
Qed.

Lemma goto_track_round_trip_witness :
  exists data,
    goto_track 417 linked
    = (set_cmd_queue (cmd_queue linked ++ [(CMD_DIRECT_TRACK_SEARCH, data)])
         linked,
       Ok tt) /\
    String.length data = 4%nat /\
    handle_response RET_TRACK_NO data linked
    = (notified (<["track_number" := VInt 417]> (current_status linked))
         linked,
       Ok tt).
Proof. apply (goto_track_round_trip linked linked 417). lia. Defined.

(** X16.  An argument outside what a method accepts makes the method a
    no-op, it is not reported: a track outside 1..999, a preset outside
    1..20, a play mode other than continuous, single and random, a device
    name that is, in lower case, none of the seven known ones; nothing is
    queued, no field is written and nothing is raised. *)
Theorem invalid_arguments_ignored (c : Controller) (n : Z) (s : string) :
  (~ 1 <= n <= 999 -> goto_track n c = (c, Ok tt)) /\
  (~ 1 <= n <= 20 -> tuner_preset n c = (c, Ok tt)) /\
  (s ∉ ["continuous"; "single"; "random"] ->
   set_play_mode s c = (c, Ok tt)) /\
  (str_lower s ∉ ["sd"; "usb"; "cd"; "bluetooth"; "fm"; "am"; "aux"] ->
   switch_device s c = (c, Ok tt)).
Proof.
  split; [|split; [|split]]; intros H.
  - unfold goto_track.
    replace ((1 <=? n) && (n <=? 999)) with false; [reflexivity|].
    symmetry. apply andb_false_iff.
    destruct (Z.leb_spec 1 n); [right; apply Z.leb_gt; lia|left; reflexivity].
  - unfold tuner_preset.
    replace ((1 <=? n) && (n <=? 20)) with false; [reflexivity|].
    symmetry. apply andb_false_iff.
    destruct (Z.leb_spec 1 n); [right; apply Z.leb_gt; lia|left; reflexivity].
  - unfold set_play_mode, play_mode_codes.
    rewrite (not_elem_of_list_to_map_1 _ s); [reflexivity|exact H].
  - unfold switch_device, device_codes.
    rewrite (not_elem_of_list_to_map_1 _ (str_lower s)); [reflexivity|exact H].
Qed.

Lemma invalid_arguments_ignored_witness :
  goto_track 0 linked = (linked, Ok tt) /\
  goto_track 1000 linked = (linked, Ok tt) /\
  tuner_preset 21 linked = (linked, Ok tt) /\
  set_play_mode "shuffle" linked = (linked, Ok tt) /\
  switch_device "Tape" linked = (linked, Ok tt).
Proof.
  split; [apply (proj1 (invalid_arguments_ignored linked 0 "")); lia|].
  split; [apply (proj1 (invalid_arguments_ignored linked 1000 "")); lia|].
  split; [apply (proj1 (proj2 (invalid_arguments_ignored linked 21 ""))); lia|].
  split.
  - apply (proj1 (proj2 (proj2 (invalid_arguments_ignored linked 0 "shuffle")))).
    compute_done.
  - apply (proj2 (proj2 (proj2 (invalid_arguments_ignored linked 0 "Tape")))).
    compute_done.
Defined.

(** Looking a key up in a table written as a list of pairs: the pair
    found is one of the list. *)
Ltac table_cases E :=
  apply elem_of_list_to_map_2 in E;
  repeat (apply elem_of_cons in E as [E|E];
          [injection E as ? ?; subst|]);
  try (apply elem_of_nil in E; destruct E).

Lemma range_digits (n : Z) :
  0 <= (n / 10) mod 10 <= 9 /\ 0 <= n mod 10 <= 9 /\
  0 <= (n / 1000) mod 10 <= 9 /\ 0 <= (n / 100) mod 10 <= 9.
Proof.
  pose proof (Z.mod_pos_bound (n / 10) 10).
  pose proof (Z.mod_pos_bound n 10).
  pose proof (Z.mod_pos_bound (n / 1000) 10).
  pose proof (Z.mod_pos_bound (n / 100) 10). lia.
Qed.

Lemma wire_digits_ascii (n : Z) :
  ascii_text (str_of_int ((n / 10) mod 10) ++ str_of_int (n mod 10)
              ++ str_of_int ((n / 1000) mod 10)
              ++ str_of_int ((n / 100) mod 10)) = true.
Proof.
  destruct (range_digits n) as (Ht & Ho & Hth & Hh).
  rewrite (wire_digits _ _ _ _ Ht Ho Hth Hh). cbn [ascii_text].
  rewrite !digit_char_ascii by assumption. reflexivity.
Qed.

(** X17.  A command-issuing method leaves the queue as it is or puts
    exactly one pair at its end; the command of the pair is one of the
    controller's command codes, and command and payload are ASCII, so that
    [_build_command] will not fail on it. *)
Theorem calls_queue_encodable (k : Call) (c : Controller) :
  cmd_queue (fst (call k c)) = cmd_queue c \/
  exists command data,
    cmd_queue (fst (call k c)) = (cmd_queue c ++ [(command, data)])%list /\
    command ∈ command_codes /\
    build_command command data = Ok (frame_bytes "0" command data).
Proof.
  destruct k; cbn [call];
    try (right; eexists; eexists;
         split; [reflexivity|split; [compute_done|reflexivity]]).
  - (* search_forward *)
    right. destruct high_speed; eexists; eexists;
      (split; [reflexivity|split; [compute_done|reflexivity]]).
  - (* search_reverse *)
    right. destruct high_speed; eexists; eexists;
      (split; [reflexivity|split; [compute_done|reflexivity]]).
  - (* goto_track *)
    unfold goto_track.
    destruct (negb ((1 <=? track_number) && (track_number <=? 999)));
      [left; reflexivity|].
    right. eexists; eexists.
    split; [reflexivity|split; [compute_done|]].
    apply build_command_frame; [reflexivity|apply wire_digits_ascii].
  - (* set_play_mode *)
    unfold set_play_mode.
    destruct (play_mode_codes !! mode) as [code|] eqn:E; [|left; reflexivity].
    right. unfold play_mode_codes in E. table_cases E.
    all: eexists; eexists;
      (split; [reflexivity|split; [compute_done|reflexivity]]).
  - (* set_repeat *)
    right. destruct enabled; eexists; eexists;
      (split; [reflexivity|split; [compute_done|reflexivity]]).
  - (* set_resume_mode *)
    right. destruct enabled; eexists; eexists;
      (split; [reflexivity|split; [compute_done|reflexivity]]).
  - (* set_incremental_play *)
    right. destruct enabled; eexists; eexists;
      (split; [reflexivity|split; [compute_done|reflexivity]]).
  - (* search_start *)
    right. destruct forward, high_speed; eexists; eexists;
      (split; [reflexivity|split; [compute_done|reflexivity]]).
  - (* switch_device *)
    unfold switch_device.
    destruct (device_codes !! str_lower device) as [code|] eqn:E;
      [|left; reflexivity].
    right. unfold device_codes in E. table_cases E.
    all: eexists; eexists;
      (split; [reflexivity|split; [compute_done|reflexivity]]).
  - (* tuner_preset *)
    unfold tuner_preset.
    destruct (negb ((1 <=? preset_number) && (preset_number <=? 20)));
      [left; reflexivity|].
    right. eexists; eexists.
    split; [reflexivity|split; [compute_done|]].
    apply build_command_frame; [reflexivity|apply wire_digits_ascii].
Qed.

Lemma char_lower_idempotent (a : ascii) :
  char_lower (char_lower a) = char_lower a.
Proof. destruct a as [[] [] [] [] [] [] [] []]; reflexivity. Qed.

Lemma str_lower_idempotent (s : string) : str_lower (str_lower s) = str_lower s.
Proof.
  induction s as [|a s IH]; [reflexivity|].
  cbn [str_lower]. rewrite char_lower_idempotent, IH. reflexivity.
Qed.

(** The table of names has every key of the table of codes: the default
    of the lookup is never used. *)
Lemma device_names_total (key code : string) :
  device_codes !! key = Some code ->
  exists name, forall default, dict_get device_names key default = name.
Proof.
  intros E. unfold device_codes in E. table_cases E.
  all: eexists; intros default; vm_compute; reflexivity.
Qed.

(** X18.  [switch_device] does not look at the case of the name: the
    device given in any mix of upper and lower case does exactly what its
    lower-case form does, and it is the lower-case form that is stored. *)
Theorem switch_device_case_insensitive (device : string) (c : Controller) :
  switch_device device c = switch_device (str_lower device) c.
Proof.
  unfold switch_device. rewrite str_lower_idempotent.
  destruct (device_codes !! str_lower device) as [code|] eqn:E;
    [|reflexivity].
  destruct (device_names_total _ _ E) as [name Hname].
  rewrite !Hname. reflexivity.
Qed.

Lemma play_mode_tables_agree (mode code : string) :
  play_mode_codes !! mode = Some code ->
  String.length code = 2%nat /\
  forall default, dict_get play_mode_map code default = mode.
Proof.
  intros E. unfold play_mode_codes in E. table_cases E.
  all: split; [reflexivity|intros default; vm_compute; reflexivity].
Qed.

Lemma device_tables_agree (key code : string) :
  device_codes !! key = Some code ->
  String.length code = 2%nat /\
  exists name,
    (forall default, dict_get device_names key default = name) /\
    device_kind_map !! code = Some (key, name).
Proof.
  intros E. unfold device_codes in E. table_cases E.
  all: split; [reflexivity|eexists; split;
                 [intros default; vm_compute; reflexivity
                 |vm_compute; reflexivity]].
Qed.

Ltac same_status :=
  apply map_eq; intros ?; rewrite !lookup_insert;
  repeat case_decide; reflexivity.

Ltac run_echo :=
  unfold handle_response, decode_response;
  cbv [RET_MECHA_STATUS RET_TRACK_NO RET_CURRENT_TRACK_TIME RET_MEDIA_STATUS
       RET_CURRENT_TRACK_INFO RET_PLAY_MODE RET_TOTAL_TRACK_TIME RET_VENDOR
       RET_RESUME_PLAY RET_REPEAT String.eqb Ascii.eqb Bool.eqb
       String.length Nat.leb str_take str_slice str_drop Nat.sub
       bind lift ret status_set modify send_command notify_callbacks
       set_repeat set_resume_mode].

(** X19.  The echo of the device confirms what the setters wrote ahead of
    it: after [set_repeat], [set_resume_mode], [set_play_mode] or
    [switch_device] have assigned their fields, decoding the return that
    carries the same value (B8 and B5 with 01 or 00, CF with the mode's
    code, FF with category 01 and the device's code at characters 6..7)
    leaves the status as it is.  The tables of the two directions agree. *)
Theorem echo_confirms_optimistic_write (c : Controller) (enabled : bool)
    (mode device code : string) (x1 x2 x3 x4 : ascii) (rest : string) :
  (let c1 := fst (set_repeat enabled c) in
   current_status
     (fst (handle_response RET_REPEAT
             ((if enabled then "01" else "00") ++ rest) c1))
   = current_status c1) /\
  (let c1 := fst (set_resume_mode enabled c) in
   current_status
     (fst (handle_response RET_RESUME_PLAY
             ((if enabled then "01" else "00") ++ rest) c1))
   = current_status c1) /\
  (play_mode_codes !! mode = Some code ->
   let c1 := fst (set_play_mode mode c) in
   current_status (fst (handle_response RET_PLAY_MODE (code ++ rest) c1))
   = current_status c1) /\
  (device_codes !! str_lower device = Some code ->
   let c1 := fst (switch_device device c) in
   current_status
     (fst (handle_response RET_VENDOR
             (String "0" (String "1" (String x1 (String x2 (String x3
                (String x4 (code ++ rest))))))) c1))
   = current_status c1).
Proof.
  split; [|split; [|split]].
  - intros c1. subst c1. destruct enabled;
      rewrite !append_cons, append_nil; run_echo; fields; same_status.
  - intros c1. subst c1. destruct enabled;
      rewrite !append_cons, append_nil; run_echo; fields; same_status.
  - intros E c1. subst c1.
    destruct (play_mode_tables_agree mode code E) as [Hlen Hmode].
    unfold set_play_mode. rewrite E.
    destruct code as [|a [|b [|? ?]]]; try discriminate Hlen.
    rewrite !append_cons, append_nil. run_echo.
    rewrite Hmode. fields. same_status.
  - intros E c1. subst c1.
    destruct (device_tables_agree _ code E) as (Hlen & name & Hname & Hkind).
    unfold switch_device. rewrite E.
    destruct code as [|a [|b [|? ?]]]; try discriminate Hlen.
    rewrite !append_cons, append_nil. run_echo.
    rewrite Hkind, Hname. fields. same_status.
Qed.

Lemma echo_confirms_optimistic_write_witness :
  play_mode_codes !! "random" = Some "06" /\
  device_codes !! str_lower "USB" = Some "10" /\
  (let c1 := fst (set_play_mode "random" linked) in
   current_status (fst (handle_response RET_PLAY_MODE "06" c1))
   = current_status c1) /\
  (let c1 := fst (switch_device "USB" linked) in
   current_status (fst (handle_response RET_VENDOR "01000010" c1))
   = current_status c1).
Proof.
  split; [reflexivity|]. split; [reflexivity|]. split.
  - exact (proj1 (proj2 (proj2
      (echo_confirms_optimistic_write linked true "random" "USB" "06"
         "0" "0" "0" "0" EmptyString))) eq_refl).
  - exact (proj2 (proj2 (proj2
      (echo_confirms_optimistic_write linked true "random" "USB" "10"
         "0" "0" "0" "0" EmptyString))) eq_refl).
Defined.

End CallsMore.

(** ** Connection and dispatch: further properties *)

Section SupervisorMore.

Lemma build_command_ok (command data : string) (bs : list byte) :
  build_command command data = Ok bs ->
  ascii_text command && ascii_text data = true /\
  bs = frame_bytes "0" command data.
Proof.
  intros H.
  destruct (ascii_text command && ascii_text data) eqn:E.
  - apply andb_prop in E as [Hc Hd].
    rewrite (build_command_frame command data Hc Hd) in H.
    injection H as <-. split; reflexivity.
  - exfalso. unfold build_command in H.
    assert (Hraise : forall s, s = String LF (MACHINE_ID ++ command ++ data
                                        ++ String CR EmptyString) ->
                     encode_ascii s = Raise UnicodeEncodeError).
    { intros s ->. apply encode_non_ascii. unfold MACHINE_ID.
      rewrite append_cons, append_nil. cbn [ascii_text].
      rewrite !ascii_text_app.
      apply andb_false_iff in E as [-> | ->];
        rewrite ?andb_false_r, ?andb_false_l; reflexivity. }
    destruct (startswith "7F" command || startswith "FF" command);
      rewrite (Hraise _ eq_refl) in H; discriminate H.
Qed.

(** X20.  [_send_command_now] never raises.  When it returns false the
    controller is exactly as before: nothing was written.  It returns true
    only on a connected controller with an open port and a write that went
    through, and then it has written the frame of the command and taken the
    clock reading after the write as the time of the last command; on such
    a controller, an ASCII command whose write goes through is sent. *)
Theorem send_command_now_outcomes (io : Tx) (command data : string)
    (c : Controller) :
  exists sent,
    snd (send_command_now io command data c) = Ok sent /\
    (sent = false -> fst (send_command_now io command data c) = c) /\
    (sent = true ->
     connected c = true /\ serial_is_open c = true /\ tx_ok io = true /\
     fst (send_command_now io command data c)
     = set_last_cmd_time (tx_clock_after io)
         (set_trace (trace c ++ [EvWrite (frame_bytes "0" command data)]) c)) /\
    (connected c = true -> serial_is_open c = true -> tx_ok io = true ->
     ascii_text command && ascii_text data = true -> sent = true).
Proof.
  unfold send_command_now.
  destruct (connected c) eqn:Hconn; cbn [negb orb].
  2: { exists false. repeat split; try reflexivity; discriminate. }
  destruct (bool_decide (is_Some (serial c))) eqn:Hser; cbn [negb].
  2: { exists false. repeat split; try reflexivity; try discriminate.
       intros _ Hopen. exfalso. apply bool_decide_eq_false in Hser.
       apply Hser. unfold serial_is_open in Hopen.
       destruct (serial c); [eexists; reflexivity|discriminate]. }
  destruct (build_command command data) as [bs|e] eqn:Hb.
  2: { exists false. repeat split; try reflexivity; try discriminate.
       intros _ _ _ Hascii. apply andb_prop in Hascii as [Hc Hd].
       rewrite (build_command_frame command data Hc Hd) in Hb.
       discriminate Hb. }
  destruct (build_command_ok command data bs Hb) as [_ ->].
  destruct (serial_is_open c) eqn:Hopen; cbn [andb].
  2: { exists false. repeat split; try reflexivity; discriminate. }
  destruct (tx_ok io) eqn:Htx.
  - exists true. repeat split; try reflexivity; discriminate.
  - exists false. repeat split; try reflexivity; discriminate.
Qed.

Lemma writes_app (tr tr' : list Event) :
  writes (tr ++ tr') = (writes tr ++ writes tr')%list.
Proof.
  induction tr as [|e tr IH]; [reflexivity|].
  destruct e; cbn [app writes]; rewrite IH; reflexivity.
Qed.

Lemma closings_app (tr tr' : list Event) :
  closings (tr ++ tr') = (closings tr + closings tr')%nat.
Proof.
  induction tr as [|e tr IH]; [reflexivity|].
  destruct e; cbn [app closings]; rewrite IH; reflexivity.
Qed.

Lemma closings_callbacks (st : gmap string Value) (ls : list Listener) :
  closings (map (fun l => EvCallback l st) ls) = 0%nat.
Proof. induction ls as [|l ls IH]; [reflexivity|exact IH]. Qed.

(** X21.  [connect] never raises.  When the port does not open it returns
    false with [connected] false, and starts no thread.  When the port
    opens it returns true with [connected] and [running] set and the port
    open, starts a command thread and a polling thread that differ, and
    writes the remote/local select frame 4C 01 straight to the port: the
    queue is not used. *)
Theorem connect_outcomes (io : Tx) (c : Controller) :
  (let r := connect false io c in
   snd r = Ok false /\ connected (fst r) = false /\
   running (fst r) = running c /\ serial (fst r) = serial c /\
   cmd_thread (fst r) = cmd_thread c /\ poll_thread (fst r) = poll_thread c /\
   writes (trace (fst r)) = writes (trace c)) /\
  (let r := connect true io c in
   snd r = Ok true /\ connected (fst r) = true /\ running (fst r) = true /\
   serial_is_open (fst r) = true /\
   (exists t1 t2, cmd_thread (fst r) = Some t1 /\
                  poll_thread (fst r) = Some t2 /\ t1 <> t2) /\
   cmd_queue (fst r) = cmd_queue c /\
   writes (trace (fst r))
   = (writes (trace c)
      ++ if tx_ok io then [frame_bytes "0" CMD_REMOTE_LOCAL_SELECT "01"]
         else [])%list).
Proof.
  split; intros r; subst r.
  - cbv [connect bind get emit modify ret]. fields.
    repeat split; try reflexivity.
    rewrite writes_app, app_nil_r. reflexivity.
  - cbv [connect start_thread bind get emit modify ret fresh_tid].
    fields. unfold send_command_now, serial_is_open. fields.
    change (build_command CMD_REMOTE_LOCAL_SELECT "01")
      with (Ok (frame_bytes "0" CMD_REMOTE_LOCAL_SELECT "01")).
    cbn [negb orb andb bool_decide decide_rel].
    replace (bool_decide (is_Some (Some {| is_open := true |}))) with true
      by (symmetry; apply bool_decide_eq_true; eexists; reflexivity).
    cbn [negb].
    destruct (tx_ok io); cbn [andb is_open]; fields;
      repeat split; try reflexivity;
      try (eexists; eexists; repeat split; try reflexivity;
           rewrite !length_app; cbn [length]; lia);
      rewrite ?writes_app; cbn [writes]; rewrite ?app_nil_r; reflexivity.
Qed.

Lemma disconnect_open (c : Controller) (me ct pt : Tid) :
  cmd_thread c = Some ct -> ct <> me ->
  poll_thread c = Some pt -> pt <> me ->
  serial_is_open c = true ->
  disconnect me c
  = (set_trace
       (trace c ++ [EvClose]
        ++ map (fun l => EvCallback l default_status) (status_callbacks c))
       (set_current_status default_status
          (set_consecutive_failures 0
             (set_connected false
                (set_serial (Some {| is_open := false |})
                   (set_running false c))))),
     Ok tt).
Proof.
  intros Hct Hne Hpt Hne' Hopen.
  unfold disconnect, bind, modify, get, join.
  cbn [cmd_thread set_running]. rewrite Hct.
  apply Nat.eqb_neq in Hne. apply Nat.eqb_neq in Hne'. rewrite Hne.
  cbn [ret poll_thread set_running]. rewrite Hpt, Hne'.
  cbn [ret].
  change (serial_is_open (set_running false c)) with (serial_is_open c).
  rewrite Hopen.
  cbv [serial_close reset_status notify_callbacks emit bind modify ret].
  fields. rewrite <- app_assoc. reflexivity.
Qed.

Lemma disconnect_closed (c : Controller) (me ct pt : Tid) :
  cmd_thread c = Some ct -> ct <> me ->
  poll_thread c = Some pt -> pt <> me ->
  serial_is_open c = false ->
  disconnect me c
  = (set_trace
       (trace c
        ++ map (fun l => EvCallback l default_status) (status_callbacks c))
       (set_current_status default_status
          (set_consecutive_failures 0
             (set_connected false (set_running false c)))),
     Ok tt).
Proof.
  intros Hct Hne Hpt Hne' Hopen.
  unfold disconnect, bind, modify, get, join.
  cbn [cmd_thread set_running]. rewrite Hct.
  apply Nat.eqb_neq in Hne. apply Nat.eqb_neq in Hne'. rewrite Hne.
  cbn [ret poll_thread set_running]. rewrite Hpt, Hne'.
  cbn [ret].
  change (serial_is_open (set_running false c)) with (serial_is_open c).
  rewrite Hopen.
  cbv [reset_status notify_callbacks bind modify ret].
  fields. reflexivity.
Qed.

(** X22.  [disconnect] called by a thread that is neither the command
    thread nor the polling thread runs to its end: the port is closed,
    [connected] and [running] are false, the failure counter is 0, the
    status is the default one and the listeners are told.  Called a second
    time it completes again and tells the listeners again, but the port,
    already closed, is not closed a second time. *)
Theorem disconnect_twice_closes_once (c : Controller) (me ct pt : Tid) :
  cmd_thread c = Some ct -> ct <> me ->
  poll_thread c = Some pt -> pt <> me ->
  serial_is_open c = true ->
  let c1 := fst (disconnect me c) in
  let c2 := fst (disconnect me c1) in
  snd (disconnect me c) = Ok tt /\
  connected c1 = false /\ running c1 = false /\
  serial_is_open c1 = false /\ consecutive_failures c1 = 0 /\
  current_status c1 = default_status /\
  closings (trace c1) = S (closings (trace c)) /\
  snd (disconnect me c1) = Ok tt /\
  closings (trace c2) = closings (trace c1) /\
  trace c2
  = (trace c1
     ++ map (fun l => EvCallback l default_status) (status_callbacks c))%list.
Proof.
  intros Hct Hne Hpt Hne' Hopen c1 c2.
  assert (E1 := disconnect_open c me ct pt Hct Hne Hpt Hne' Hopen).
  assert (E2 : disconnect me c1
               = (set_trace
                    (trace c1
                     ++ map (fun l => EvCallback l default_status)
                          (status_callbacks c1))
                    (set_current_status default_status
                       (set_consecutive_failures 0
                          (set_connected false (set_running false c1)))),
                  Ok tt)).
  { subst c1. rewrite E1. cbn [fst].
    apply (disconnect_closed _ me ct pt); try assumption; reflexivity. }
  subst c2. rewrite E2. subst c1. rewrite E1. cbn [fst snd]. fields.
  repeat split; try reflexivity.
  - rewrite !closings_app, closings_callbacks. cbn [closings]. lia.
  - rewrite !closings_app, !closings_callbacks. cbn [closings]. lia.
Qed.

Lemma disconnect_twice_closes_once_witness :
  let c1 := fst (disconnect 0%nat linked_playing) in
  let c2 := fst (disconnect 0%nat c1) in
  current_status c1 = default_status /\
  connected c1 = false /\
  closings (trace c1) = 1%nat /\ closings (trace c2) = 1%nat.
Proof.
  intros c1 c2.
  destruct (disconnect_twice_closes_once linked_playing 0%nat 2%nat 3%nat)
    as (_ & Hconn & _ & _ & _ & Hst & Hcl & _ & Hcl2 & _);
    try reflexivity; try lia.
  fold c1 in Hconn, Hst, Hcl, Hcl2. fold c2 in Hcl2.
  split; [exact Hst|]. split; [exact Hconn|].
  split; [exact Hcl|]. rewrite Hcl2. exact Hcl.
Defined.






Lemma poll_queries_length (poll_count : Z) :
  0 <= poll_count ->
  (length (poll_queries poll_count) = 12%nat /\ poll_count mod 30 = 0) \/
  (length (poll_queries poll_count) = 8%nat /\ poll_count mod 10 = 0 /\
   poll_count mod 30 <> 0) \/
  (length (poll_queries poll_count) = 3%nat /\ poll_count mod 10 <> 0).
Proof.
  intros Hpc. unfold poll_queries.
  destruct (Z.eqb_spec (poll_count mod 10) 0) as [H10|H10];
    destruct (Z.eqb_spec (poll_count mod 30) 0) as [H30|H30].
  - left. split; [reflexivity|exact H30].
  - right. left. split; [reflexivity|split; [exact H10|exact H30]].
  - exfalso. apply H10. clear -H30 Hpc. Z.div_mod_to_equations. lia.
  - right. right. split; [reflexivity|exact H10].
Qed.

(** X26.  A connected iteration that reads nothing and stays below the
    threshold queues the three queries of every cycle (mechanism status,
    track number, track time), on every tenth count five more (media
    status, track information, total time, play mode, device) and on every
    thirtieth count four more (resume, repeat, incremental play,
    remote/local), in this order, behind what the queue holds; so a cycle
    queues 3, 8 or 12 queries, the first one 12.  The failure counter and
    the count go up by one. *)
Theorem poll_cadence (c : Controller) (me : Tid) (poll_count : Z) (tk : Tick) :
  connected c = true ->
  bytes_index x0d (response_buffer c) = None ->
  quiet tk = true ->
  consecutive_failures c + 1 < max_failures_before_disconnect c ->
  0 <= poll_count ->
  poll_iteration me poll_count tk c
  = (set_consecutive_failures (consecutive_failures c + 1)
       (set_cmd_queue (cmd_queue c ++ poll_queries poll_count) c),
     Ok (poll_count + 1)) /\
  ((length (poll_queries poll_count) = 12%nat /\ poll_count mod 30 = 0) \/
   (length (poll_queries poll_count) = 8%nat /\ poll_count mod 10 = 0 /\
    poll_count mod 30 <> 0) \/
   (length (poll_queries poll_count) = 3%nat /\ poll_count mod 10 <> 0)).
Proof.
  intros Hconn Hcr Hq Hlt Hpc. split; [|apply poll_queries_length; exact Hpc].
  unfold poll_iteration, try_except, poll_try.
  unfold bind at 1. unfold get at 1. rewrite Hconn. cbn [negb].
  unfold bind at 1. rewrite (read_response_quiet c tk Hq Hcr).
  apply Z.leb_gt in Hlt. unfold poll_queries.
  destruct (poll_count mod 10 =? 0), (poll_count mod 30 =? 0);
    cbv [bind ret send_command modify get negb]; fields;
    rewrite Hlt; rewrite <- ?app_assoc; cbn [app]; reflexivity.
Qed.

Lemma poll_cadence_witness :
  poll_iteration 3%nat 0 (quiet_tick 300) linked
  = (set_consecutive_failures 1 (set_cmd_queue (poll_queries 0) linked),
     Ok 1) /\
  length (poll_queries 0) = 12%nat.
Proof.
  split; [|reflexivity].
  exact (proj1 (poll_cadence linked 3%nat 0 (quiet_tick 300)
                  eq_refl eq_refl eq_refl eq_refl ltac:(lia))).
Defined.


Lemma send_command_now_fails (io : Tx) (command data : string)
    (c : Controller) :
  connected c = false \/ serial_is_open c = false \/ tx_ok io = false \/
  encodable (command, data) = false ->
  send_command_now io command data c = (c, Ok false).
Proof.
  intros H. unfold send_command_now.
  destruct (connected c) eqn:Hconn; cbn [negb orb]; [|reflexivity].
  destruct (bool_decide (is_Some (serial c))); cbn [negb]; [|reflexivity].
  destruct (build_command command data) as [bs|e] eqn:Hb; [|reflexivity].
  destruct (build_command_ok command data bs Hb) as [Henc _].
  destruct (serial_is_open c) eqn:Hopen; cbn [andb]; [|reflexivity].
  destruct (tx_ok io) eqn:Htx; [|reflexivity].
  exfalso. unfold encodable in H. cbn [fst snd] in H.
  rewrite Henc in H. destruct H as [H|[H|[H|H]]]; discriminate H.
Qed.

Lemma send_command_now_sends (io : Tx) (command data : string)
    (c : Controller) :
  connected c = true -> serial_is_open c = true -> tx_ok io = true ->
  encodable (command, data) = true ->
  send_command_now io command data c
  = (set_last_cmd_time (tx_clock_after io)
       (set_trace (trace c ++ [EvWrite (frame_of (command, data))]) c),
     Ok true).
Proof.
  intros Hconn Hopen Htx Henc. unfold send_command_now.
  rewrite Hconn, Hopen, Htx. cbn [negb orb andb].
  replace (bool_decide (is_Some (serial c))) with true.
  2: { symmetry. apply bool_decide_eq_true. unfold serial_is_open in Hopen.
       destruct (serial c); [eexists; reflexivity|discriminate]. }
  cbn [negb]. unfold encodable in Henc. cbn [fst snd] in Henc.
  apply andb_prop in Henc as [Hc Hd].
  rewrite (build_command_frame command data Hc Hd). reflexivity.
Qed.

(** X27.  The command thread sends what is queued in the order it was
    queued: on a connected controller with an open port, with writes that
    go through and ASCII commands, a run of at least as many iterations as
    the queue is long empties the queue and writes the frames of the queued
    commands to the port, first in, first out. *)
Theorem commands_sent_in_order (ios : list Tx) :
  forall c : Controller,
  running c = true -> connected c = true -> serial_is_open c = true ->
  forallb encodable (cmd_queue c) = true ->
  forallb tx_ok ios = true ->
  (length (cmd_queue c) <= length ios)%nat ->
  exists c',
    process_commands ios c = (c', Ok false) /\
    cmd_queue c' = [] /\
    writes (trace c')
    = (writes (trace c) ++ map frame_of (cmd_queue c))%list.
Proof.
  induction ios as [|io ios IH];
    intros c Hrun Hconn Hopen Henc Htx Hlen.
  - destruct (cmd_queue c) as [|cmd q] eqn:Hq;
      [|cbn [length] in Hlen; lia].
    exists c. cbn [process_commands]. rewrite Hrun, Hq.
    cbn [negb map]. rewrite app_nil_r. repeat split.
  - cbn [forallb] in Htx. apply andb_prop in Htx as [Hio Htx].
    cbn [process_commands]. rewrite Hrun. cbn [negb].
    unfold process_iteration, try_except.
    unfold bind at 1. unfold get at 1.
    destruct (cmd_queue c) as [|[command data] q] eqn:Hq.
    + cbn [ret].
      destruct (IH c Hrun Hconn Hopen) as (c' & E & Hq' & Hw);
        [rewrite Hq; reflexivity | exact Htx | rewrite Hq; cbn; lia |].
      exists c'. rewrite Hq in Hw. repeat split; assumption.
    + cbn [forallb] in Henc. apply andb_prop in Henc as [Hcmd Henc].
      cbv [bind modify ret].
      rewrite (send_command_now_sends io command data (set_cmd_queue q c));
        try assumption.
      destruct (IH (set_last_cmd_time (tx_clock_after io)
                      (set_trace (trace c ++ [EvWrite (frame_of (command, data))])
                         (set_cmd_queue q c))))
        as (c' & E & Hq' & Hw); try assumption.
      { cbn [length] in Hlen. fields. lia. }
      exists c'. split; [exact E|]. split; [exact Hq'|].
      rewrite Hw. fields. rewrite writes_app. cbn [writes map].
      rewrite <- app_assoc. reflexivity.
Qed.

Lemma commands_sent_in_order_witness :
  let c := set_cmd_queue [(CMD_PLAY, ""); (CMD_TRACK_SKIP, "00")] linked in
  exists c',
    process_commands [tx_at 1100; tx_at 1200; tx_at 1300] c = (c', Ok false)
    /\ cmd_queue c' = []
    /\ writes (trace c')
       = (writes (trace c)
          ++ [frame_bytes "0" CMD_PLAY ""; frame_bytes "0" CMD_TRACK_SKIP "00"])%list.
Proof.
  intros c.
  apply (commands_sent_in_order [tx_at 1100; tx_at 1200; tx_at 1300] c);
    try reflexivity.
  cbn. lia.
Defined.

(** X28.  A command whose write fails is lost: when the controller is not
    connected, its port is closed, the write does not go through or the
    command cannot be encoded, the iteration of the command thread still
    takes the command off the queue, writes nothing, raises nothing and
    does not put it back. *)
Theorem failed_write_drops_command (io : Tx) (c : Controller)
    (command data : string) (rest : list (string * string)) :
  cmd_queue c = (command, data) :: rest ->
  connected c = false \/ serial_is_open c = false \/ tx_ok io = false \/
  encodable (command, data) = false ->
  process_iteration io c = (set_cmd_queue rest c, Ok tt).
Proof.
  intros Hq H. unfold process_iteration, try_except.
  cbv [bind get modify ret]. rewrite Hq.
  rewrite (send_command_now_fails io command data (set_cmd_queue rest c) H).
  reflexivity.
Qed.

Lemma failed_write_drops_command_witness :
  let c := set_cmd_queue [(CMD_PLAY, ""); (CMD_STOP, "")] linked in
  let io := {| tx_clock := 1100; tx_ok := false; tx_clock_after := 1100 |} in
  process_iteration io c = (set_cmd_queue [(CMD_STOP, "")] c, Ok tt).
Proof.
  intros c io.
  apply (failed_write_drops_command io c CMD_PLAY "" [(CMD_STOP, "")]);
    [reflexivity|right; right; left; reflexivity].
Defined.

End SupervisorMore.
